(** * Gold Sentiment Index: the weighting pipeline and its gauge

    A shallow embedding of [processing/sentiment.py] and of the gauge script
    that [processing/dashboard.py] writes into the dashboard page.

    Number model.  Python and JavaScript numbers are binary64 floats.
    - Instants and durations are integers (microseconds), as [datetime] and
      [timedelta] store them.
    - The age in days and the recency weights are rationals ([Q]).  An age is
      a whole number of microseconds divided by 86400e6; two ages on either
      side of one of the thresholds 1, 3, 7, 14, 30 differ by at least
      1e-6/86400 days, far more than the rounding of the two float divisions,
      so the float comparisons of the source decide exactly as the rational
      ones do.
    - Sentiment confidences, impact weights, effective weights and the index
      are real numbers ([R]): the power [base ** 1.5] has no rational value.
      NaN, infinities and rounding are outside this idealisation.

    Text model.  A [str] is a [string] of 8-bit characters; [lower] and
    [strip] act on the ASCII range, which is where every keyword lives.
    Statements that depend on what the two do to other characters carry
    the hypothesis [ascii_only].

    Record model.  A record of the snapshot is a JSON object whose [title],
    [description], [content], [timestamp] and [url] are strings, [null] or
    missing. *)

From Stdlib Require Import Bool List String Ascii ZArith QArith Qminmax.
From Stdlib Require Import Reals Qreals Psatz Lia.
Import ListNotations.

Set Implicit Arguments.

(* ------------------------------------------------------------------ *)
(** ** Python text primitives *)

Module Text.

#[local] Open Scope string_scope.

(** [bool(s)] for a [str]: the empty string is falsy. *)
Definition truthy (s : string) : bool :=
  match s with EmptyString => false | String _ _ => true end.

Definition lower_ascii (c : ascii) : ascii :=
  let n := nat_of_ascii c in
  if (65 <=? n)%nat && (n <=? 90)%nat then ascii_of_nat (n + 32) else c.

(** [s.lower()] *)
Fixpoint lower (s : string) : string :=
  match s with
  | EmptyString => EmptyString
  | String c r => String (lower_ascii c) (lower r)
  end.

(** [k in txt]: [k] occurs in [txt] as a contiguous substring. *)
Fixpoint contains (k txt : string) : bool :=
  prefix k txt ||
  match txt with
  | EmptyString => false
  | String _ r => contains k r
  end.

(** The property [contains] decides. *)
Definition substring_of (k txt : string) : Prop :=
  exists pre post, txt = pre ++ k ++ post.

(** [str.isspace] on the ASCII range: TAB, LF, VT, FF, CR, FS, GS, RS, US
    and the space. *)
Definition is_space (c : ascii) : bool :=
  let n := nat_of_ascii c in
  ((9 <=? n)%nat && (n <=? 13)%nat) || ((28 <=? n)%nat && (n <=? 32)%nat).

Fixpoint lstrip (s : string) : string :=
  match s with
  | EmptyString => EmptyString
  | String c r => if is_space c then lstrip r else s
  end.

Fixpoint rstrip (s : string) : string :=
  match s with
  | EmptyString => EmptyString
  | String c r =>
      match rstrip r with
      | EmptyString => if is_space c then EmptyString else String c EmptyString
      | r' => String c r'
      end
  end.

(** [s.strip()] *)
Definition strip (s : string) : string := rstrip (lstrip s).

(** [s.replace(old, new)] for a one-character [old]. *)
Fixpoint replace (old : ascii) (new s : string) : string :=
  match s with
  | EmptyString => EmptyString
  | String c r =>
      if Ascii.eqb c old then new ++ replace old new r
      else String c (replace old new r)
  end.

(** [sep.join(parts)] *)
Definition join (sep : string) (parts : list string) : string :=
  String.concat sep parts.

(** *** Letter case and the ASCII range, said without [lower] or [strip]

    The keyword test is a case-insensitive substring test.  A stretch of
    text spells a keyword when it has the characters of the keyword, each
    as it stands or as its ASCII capital. *)

Definition is_upper (c : ascii) : bool :=
  let n := nat_of_ascii c in (65 <=? n)%nat && (n <=? 90)%nat.

Definition same_letter (c k : ascii) : Prop :=
  c = k \/ (is_upper c = true /\ nat_of_ascii k = (nat_of_ascii c + 32)%nat).

Fixpoint spelled (mid k : string) : Prop :=
  match mid, k with
  | EmptyString, EmptyString => True
  | String c m, String d k' => same_letter c d /\ spelled m k'
  | _, _ => False
  end.

Fixpoint no_upper (s : string) : bool :=
  match s with
  | EmptyString => true
  | String c r => negb (is_upper c) && no_upper r
  end.

(** Every character is below 128.  On such text [str.lower] and
    [str.strip] do what [lower] and [strip] do. *)
Fixpoint ascii_only (s : string) : bool :=
  match s with
  | EmptyString => true
  | String c r => (nat_of_ascii c <? 128)%nat && ascii_only r
  end.

End Text.

(* ------------------------------------------------------------------ *)
(** ** Exceptions *)

Inductive exn : Type :=
| TypeError                      (* raised by the interpreter *)
| External (msg : string).       (* raised inside the classifier *)

Inductive outcome (A : Type) : Type :=
| Ok (a : A)
| Raise (e : exn).

Arguments Ok {A} a.
Arguments Raise {A} e.

(* ------------------------------------------------------------------ *)
(** ** [datetime] *)

Module Datetime.

#[local] Open Scope Z_scope.

(** A [datetime]: the wall-clock reading in microseconds since
    1970-01-01T00:00:00 and, for an aware value, its UTC offset in
    microseconds ([tzinfo]); [None] is a naive value. *)
Record datetime : Type := mkDatetime {
  wall_us : Z;
  utcoffset_us : option Z
}.

(** [datetime.now(timezone.utc)] when the clock shows [now_us]. *)
Definition now_utc (now_us : Z) : datetime :=
  {| wall_us := now_us; utcoffset_us := Some 0 |}.

(** [a - b] between datetimes, as a [timedelta] in microseconds.  Python
    refuses to subtract a naive value from an aware one. *)
Definition sub (a b : datetime) : outcome Z :=
  match utcoffset_us a, utcoffset_us b with
  | Some oa, Some ob => Ok ((wall_us a - oa) - (wall_us b - ob))
  | None, None => Ok (wall_us a - wall_us b)
  | _, _ => Raise TypeError
  end.

(** *** A reference reader for the canonical ISO-8601 shapes

    [datetime.fromisoformat] belongs to the Python library; the development
    takes it as a parameter.  The reader below is the instance used in the
    worked examples.  It accepts [YYYY-MM-DD], [YYYY-MM-DD*HH:MM:SS] and
    [YYYY-MM-DD*HH:MM:SS+HH:MM] (either sign), on which every version of the
    library agrees, and rejects everything else. *)

Definition digit (c : ascii) : option Z :=
  let n := nat_of_ascii c in
  if (48 <=? n)%nat && (n <=? 57)%nat then Some (Z.of_nat n - 48) else None.

Fixpoint number (acc : Z) (cs : list ascii) : option Z :=
  match cs with
  | [] => Some acc
  | c :: r => match digit c with
              | Some d => number (10 * acc + d) r
              | None => None
              end
  end.

Definition is_leap (y : Z) : bool :=
  ((y mod 4 =? 0) && negb (y mod 100 =? 0)) || (y mod 400 =? 0).

Definition days_in_month (y m : Z) : Z :=
  if m =? 2 then (if is_leap y then 29 else 28)
  else if (m =? 4) || (m =? 6) || (m =? 9) || (m =? 11) then 30
  else 31.

(** Days from 1970-01-01 to the given proleptic Gregorian date. *)
Definition days_from_civil (y m d : Z) : Z :=
  let y' := if m <=? 2 then y - 1 else y in
  let era := y' / 400 in
  let yoe := y' - era * 400 in
  let mp := if m <=? 2 then m + 9 else m - 3 in
  let doy := (153 * mp + 2) / 5 + d - 1 in
  let doe := yoe * 365 + yoe / 4 - yoe / 100 + doy in
  era * 146097 + doe - 719468.

Definition civil_date (y m d : Z) : option Z :=
  if (1 <=? y) && (y <=? 9999) && (1 <=? m) && (m <=? 12)
     && (1 <=? d) && (d <=? days_in_month y m)
  then Some (days_from_civil y m d * 86400000000) else None.

Definition read_date (cs : list ascii) : option Z :=
  match cs with
  | [y1; y2; y3; y4; s1; m1; m2; s2; d1; d2] =>
      if Ascii.eqb s1 "-" && Ascii.eqb s2 "-" then
        match number 0 [y1; y2; y3; y4], number 0 [m1; m2], number 0 [d1; d2] with
        | Some y, Some m, Some d => civil_date y m d
        | _, _, _ => None
        end
      else None
  | _ => None
  end.

(** [HH:MM:SS], as microseconds into the day. *)
Definition read_hms (cs : list ascii) : option Z :=
  match cs with
  | [h1; h2; s1; m1; m2; s2; c1; c2] =>
      if Ascii.eqb s1 ":" && Ascii.eqb s2 ":" then
        match number 0 [h1; h2], number 0 [m1; m2], number 0 [c1; c2] with
        | Some h, Some m, Some s =>
            if (h <? 24) && (m <? 60) && (s <? 60)
            then Some (((h * 60 + m) * 60 + s) * 1000000) else None
        | _, _, _ => None
        end
      else None
  | _ => None
  end.

Definition read_offset (cs : list ascii) : option Z :=
  match cs with
  | [sg; h1; h2; s1; m1; m2] =>
      if Ascii.eqb s1 ":" then
        match number 0 [h1; h2], number 0 [m1; m2] with
        | Some h, Some m =>
            if (h <? 24) && (m <? 60) then
              let off := (h * 60 + m) * 60 * 1000000 in
              if Ascii.eqb sg "+" then Some off
              else if Ascii.eqb sg "-" then Some (- off)
              else None
            else None
        | _, _ => None
        end
      else None
  | _ => None
  end.

Definition fromisoformat_ref (s : string) : option datetime :=
  let cs := list_ascii_of_string s in
  match read_date (firstn 10 cs) with
  | None => None
  | Some day =>
      match skipn 10 cs with
      | [] => Some {| wall_us := day; utcoffset_us := None |}
      | _ :: rest =>
          match read_hms (firstn 8 rest) with
          | None => None
          | Some tod =>
              match skipn 8 rest with
              | [] => Some {| wall_us := day + tod; utcoffset_us := None |}
              | tz =>
                  match read_offset tz with
                  | Some off =>
                      Some {| wall_us := day + tod; utcoffset_us := Some off |}
                  | None => None
                  end
              end
          end
      end
  end.

(** *** A reference printer

    [datetime.isoformat] for a UTC reading in the years 1 to 9999:
    [YYYY-MM-DDTHH:MM:SS+00:00], with [.ffffff] after the seconds when the
    microseconds are not zero. *)

Definition digit_char (d : Z) : ascii := ascii_of_nat (48 + Z.to_nat d).

Fixpoint pad (width : nat) (n : Z) (acc : string) : string :=
  match width with
  | O => acc
  | S w => pad w (n / 10) (String (digit_char (n mod 10)) acc)
  end.

(** The proleptic Gregorian date [days] after 1970-01-01. *)
Definition civil_from_days (days : Z) : Z * Z * Z :=
  let z := days + 719468 in
  let era := z / 146097 in
  let doe := z - era * 146097 in
  let yoe := (doe - doe / 1460 + doe / 36524 - doe / 146096) / 365 in
  let doy := doe - (365 * yoe + yoe / 4 - yoe / 100) in
  let mp := (5 * doy + 2) / 153 in
  let d := doy - (153 * mp + 2) / 5 + 1 in
  let m := if mp <? 10 then mp + 3 else mp - 9 in
  let y := yoe + era * 400 in
  (if m <=? 2 then y + 1 else y, m, d).

Definition isoformat_ref (now_us : Z) : string :=
  let days := now_us / 86400000000 in
  let tod := now_us mod 86400000000 in
  let '(y, m, d) := civil_from_days days in
  let secs := tod / 1000000 in
  let us := tod mod 1000000 in
  let frac := if us =? 0 then ""%string
              else String "." (pad 6 us ""%string) in
  pad 4 y (String "-" (pad 2 m (String "-" (pad 2 d (String "T"
    (pad 2 (secs / 3600) (String ":" (pad 2 (secs / 60 mod 60) (String ":"
      (pad 2 (secs mod 60) (frac ++ "+00:00")%string)))))))))).

End Datetime.


(* ------------------------------------------------------------------ *)
(** ** The data of a run *)

(** [models.finbert_gold.SentimentScores] *)
Record SentimentScores : Type := mkScores {
  positive : R;
  negative : R;
  neutral : R
}.

(** [processing.index_calc.IndexComponents] *)
Record IndexComponents : Type := mkIndex {
  nw : R;
  nw_norm : R;
  gsi : R;
  classification : string
}.

(** A value stored under a key of a JSON object: the key may be missing,
    hold [null], or hold a string. *)
Inductive jfield : Type :=
| Absent
| Null
| Str (s : string).

(** One record of [news.json]. *)
Record article : Type := mkArticle {
  title : jfield;
  description : jfield;
  content : jfield;
  timestamp : jfield;
  url : jfield
}.

(** [d.get(key, "")]: a Python value, [None] included. *)
Definition get_default (f : jfield) : option string :=
  match f with
  | Absent => Some ""%string
  | Null => None
  | Str s => Some s
  end.

(** [d.get(key) or ""] *)
Definition get_or_empty (f : jfield) : string :=
  match f with
  | Str s => s
  | _ => ""%string
  end.

(** [str(v)] *)
Definition py_str (v : option string) : string :=
  match v with
  | None => "None"%string
  | Some s => s
  end.

(* ------------------------------------------------------------------ *)
(** ** JSON documents and the files of the project

    The files the pipeline reads and writes hold JSON.  A document is kept
    as its value: [json.dumps] followed by [json.loads] (or by the browser's
    [resp.json()]) gives the value back, and the text in between is the
    library's business.  Integers and floats share [JNum]. *)

Module Json.

#[local] Open Scope string_scope.

#[warnings="-register-all"]
Inductive json : Type :=
| JNull
| JBool (b : bool)
| JNum (x : R)
| JStr (s : string)
| JArr (items : list json)
| JObj (fields : list (string * json)).

(** A Python [dict] with string keys, as its items in insertion order; a
    key occurs once. *)
Definition dict : Type := list (string * json).

Fixpoint dict_get (k : string) (d : dict) : option json :=
  match d with
  | [] => None
  | (k', v) :: r => if String.eqb k' k then Some v else dict_get k r
  end.

(** The value under a key of a document that is an object. *)
Definition field (k : string) (j : json) : option json :=
  match j with
  | JObj d => dict_get k d
  | _ => None
  end.

(** [d[k] = v]: an existing key keeps its place, a new one goes last. *)
Fixpoint dict_set (k : string) (v : json) (d : dict) : dict :=
  match d with
  | [] => [(k, v)]
  | (k', v') :: r =>
      if String.eqb k' k then (k', v) :: r else (k', v') :: dict_set k v r
  end.

(** [d.update(other)] *)
Definition dict_update (d other : dict) : dict :=
  fold_left (fun acc kv => dict_set (fst kv) (snd kv) acc) other d.

(** [bool(v)] in Python for a decoded document. *)
Definition py_truthy (v : json) : bool :=
  match v with
  | JNull => false
  | JBool b => b
  | JNum x => if Req_dec_T x 0 then false else true
  | JStr s => Text.truthy s
  | JArr items => match items with [] => false | _ :: _ => true end
  | JObj fields => match fields with [] => false | _ :: _ => true end
  end.

(** What a path holds: text that is not JSON, or a document. *)
Inductive file : Type :=
| Garbled
| Doc (j : json).

(** The files below the project root, by their path relative to it; the
    directories exist and can be written. *)
Definition store : Type := string -> option file.

Definition write_text (p : string) (f : file) (st : store) : store :=
  fun q => if String.eqb q p then Some f else st q.

(** What the file system does with a [write_text] to a path: the text is
    written; the file cannot be opened and stays as it was; or it is opened,
    which empties it, and the write then fails.  The last two raise. *)
Inductive write_fate : Type :=
| Written
| Refused
| Truncated.

(** One [write_text] under a fate: whether it went through, and the files
    afterwards. *)
Definition try_write (fate : string -> write_fate) (p : string) (f : file)
  (st : store) : bool * store :=
  match fate p with
  | Written => (true, write_text p f st)
  | Refused => (false, st)
  | Truncated => (false, write_text p Garbled st)
  end.

Definition NEWS_JSON_PATH : string := "news.json".
Definition SENTIMENT_RESULTS_PATH : string := "sentiment_results.json".
Definition GSI_VALUE_PATH : string := "docs/gsi_value.json".
Definition DASHBOARD_HTML_PATH : string := "docs/index.html".

(** How a step that reads files ends. *)
Inductive loaded (A : Type) : Type :=
| Done (a : A)
| JSONDecodeError
| Uncaught (e : exn).

Arguments Done {A} a.
Arguments JSONDecodeError {A}.
Arguments Uncaught {A} e.

End Json.

(* ------------------------------------------------------------------ *)
(** ** [processing/sentiment.py] *)

Module Sentiment.

Import Text Datetime.

#[local] Open Scope string_scope.
#[local] Open Scope Q_scope.

Definition HIGH_IMPACT_KEYWORDS : list string :=
  [ "powell";
    "federal reserve";
    "fed";
    "rate hike";
    "rate cut";
    "rate hikes";
    "rate cuts";
    "interest rates";
    "monetary policy";
    "qe";
    "quantitative easing";
    "taper";
    "central bank";
    "central banks";
    "inflation shock";
    "stagflation";
    "recession";
    "crisis";
    "credit crunch";
    "de-dollarization";
    "brics" ]%string.

Record DocumentSentiment : Type := mkDoc {
  source : string;
  id : string;
  doc_timestamp : string;
  text : string;
  sentiment : SentimentScores
}.

Definition _extract_news_text (a : article) : string :=
  let parts := [ get_or_empty (title a);
                 get_or_empty (description a);
                 get_or_empty (content a) ] in
  join (String " " (String "010" EmptyString)) (filter truthy parts).

(** The tail of [_recency_weight]: the step table on the age in days. *)
Definition step_weight (age_days : Q) : Q :=
  if Qle_bool age_days 1 then 1 # 1
  else if Qle_bool age_days 3 then 8 # 10
  else if Qle_bool age_days 7 then 6 # 10
  else if Qle_bool age_days 14 then 3 # 10
  else if Qle_bool age_days 30 then 1 # 10
  else 0.

(** [max(0.0, delta.total_seconds() / 86400.0)] for a [timedelta] of
    [delta_us] microseconds. *)
Definition age_days_of (delta_us : Z) : Q :=
  Qmax 0 (((delta_us # 1) / (1000000 # 1)) / (86400 # 1)).

(** [_impact_weight] *)
Definition impact_boost_of (txt : string) : R :=
  if existsb (fun k => contains k txt) HIGH_IMPACT_KEYWORDS then 3.0%R else 1.0%R.

Definition _impact_weight (score : SentimentScores) (text : string) : R :=
  let margin := Rabs (positive score - negative score) in
  let base := Rmax margin 1e-3 in
  let txt := lower text in
  let impact_boost := impact_boost_of txt in
  let gamma := 1.5%R in
  (Rpower base gamma * impact_boost)%R.

(** What a run does to the outside: the calls that leave the module. *)
Inductive event : Type :=
| AnalyzeBatch (texts : list string)
| ComputeIndex (scores : list SentimentScores) (weights : list R).

(** A computation: the calls made so far, and a value or an exception. *)
Definition M (A : Type) : Type := (list event * outcome A)%type.

Definition ret {A} (a : A) : M A := ([], Ok a).

Definition bind {A B} (m : M A) (k : A -> M B) : M B :=
  match m with
  | (tr, Ok a) => let '(tr', r) := k a in ((tr ++ tr')%list, r)
  | (tr, Raise e) => (tr, Raise e)
  end.

Definition lift {A} (o : outcome A) : M A := ([], o).

Notation "x <- m ;; k" := (bind m (fun x => k))
  (at level 61, m at next level, right associativity).
Notation "' p <- m ;; k" := (bind m (fun x => match x with p => k end))
  (at level 61, p pattern, m at next level, right associativity).

(** The dictionary [analyze_documents] returns. *)
Record result : Type := mkResult {
  res_timestamp : Z;
  res_count : nat;
  res_documents : list DocumentSentiment;
  res_nw : R;
  res_nw_norm : R;
  res_gsi : R;
  res_classification : string
}.

(** The [result] dictionary built at the end of [analyze_documents]. *)
Definition build_result (now_iso : Z) (news_docs : list DocumentSentiment)
  (components : IndexComponents) : result :=
  {| res_timestamp := now_iso;
     res_count := List.length news_docs;
     res_documents := news_docs;
     res_nw := nw components;
     res_nw_norm := nw_norm components;
     res_gsi := gsi components;
     res_classification := classification components |}.

(** A keyword of the list occurs in the lower-cased text. *)
Definition keyword_hit (text : string) : Prop :=
  exists k, In k HIGH_IMPACT_KEYWORDS /\ substring_of k (lower text).

(** The keyword test in the words of its contract: some stretch of the
    text spells a keyword of the list, in any mix of upper and lower case. *)
Definition caseless_hit (text : string) : Prop :=
  exists k pre mid post,
    In k HIGH_IMPACT_KEYWORDS /\ text = pre ++ mid ++ post /\ spelled mid k.

Section Run.

(** [datetime.fromisoformat]: [None] stands for its [ValueError]. *)
Variable fromisoformat : string -> option datetime.

(** [models.finbert_gold.analyze_batch], the external classifier. *)
Variable analyze_batch : list string -> outcome (list SentimentScores).

(** [processing.index_calc.compute_index] *)
Variable compute_index :
  list SentimentScores -> list R -> outcome IndexComponents.

(** The clock: [now_at i] is the reading available while record [i] of the
    snapshot is examined, [now_end] the reading taken for the result. *)
Variable now_at : nat -> Z.
Variable now_end : Z.

Definition _recency_weight (now_us : Z) (ts_str : option string) : outcome Q :=
  match ts_str with
  | None => Ok 0
  | Some s =>
      if negb (truthy s) then Ok 0
      else
        match fromisoformat (replace "Z" "+00:00" s) with
        | None => Ok 0
        | Some ts =>
            match Datetime.sub (now_utc now_us) ts with
            | Raise e => Raise e
            | Ok delta_us => Ok (step_weight (age_days_of delta_us))
            end
        end
  end.

(** The first loop of [analyze_documents], from record [i] on: the kept
    records with their recency weights and texts. *)
Fixpoint collect (i : nat) (news : list article)
  : outcome (list article * list Q * list string) :=
  match news with
  | [] => Ok ([], [], [])
  | n :: rest =>
      match _recency_weight (now_at i) (get_default (timestamp n)) with
      | Raise e => Raise e
      | Ok w =>
          if Qle_bool w 0 then collect (S i) rest
          else
            let text := _extract_news_text n in
            if negb (truthy (strip text)) then collect (S i) rest
            else
              match collect (S i) rest with
              | Raise e => Raise e
              | Ok (news_items, recency_weights, texts) =>
                  Ok (n :: news_items, w :: recency_weights, text :: texts)
              end
      end
  end.

(** [for s, w, text in zip(news_scores, recency_weights, texts)] *)
Fixpoint effective_weights_of (news_scores : list SentimentScores)
  (recency_weights : list Q) (texts : list string) : list R :=
  match news_scores, recency_weights, texts with
  | s :: ss, w :: ws, text :: ts =>
      let impact := _impact_weight s text in
      (Q2R w * impact)%R :: effective_weights_of ss ws ts
  | _, _, _ => []
  end.

(** [for raw, s in zip(news_items, news_scores)] *)
Fixpoint news_docs_of (news_items : list article)
  (news_scores : list SentimentScores) : list DocumentSentiment :=
  match news_items, news_scores with
  | raw :: items, s :: ss =>
      {| source := "news";
         id := py_str (get_default (url raw));
         doc_timestamp := py_str (get_default (timestamp raw));
         text := _extract_news_text raw;
         sentiment := s |} :: news_docs_of items ss
  | _, _ => []
  end.

Definition call_analyze_batch (texts : list string) : M (list SentimentScores) :=
  ([AnalyzeBatch texts], analyze_batch texts).

Definition call_compute_index (scores : list SentimentScores)
  (weights : list R) : M IndexComponents :=
  ([ComputeIndex scores weights], compute_index scores weights).

Definition analyze_documents (news_raw : list article) : M result :=
  ' (news_items, recency_weights, texts) <- lift (collect 0 news_raw) ;;
  news_scores <-
    match texts with
    | [] => ret []
    | _ :: _ => call_analyze_batch texts
    end ;;
  let effective_weights :=
    effective_weights_of news_scores recency_weights texts in
  let news_docs := news_docs_of news_items news_scores in
  components <- call_compute_index news_scores effective_weights ;;
  let now_iso := now_end in
  ret (build_result now_iso news_docs components).

(** *** Observations on a run *)

(** The filter of the first loop in the words of its contract: record [i]
    is kept when its recency weight is positive and its text is not blank. *)
Definition kept (i : nat) (n : article) : bool :=
  match _recency_weight (now_at i) (get_default (timestamp n)) with
  | Ok w => negb (Qle_bool w 0) && truthy (strip (_extract_news_text n))
  | Raise _ => false
  end.

Fixpoint select (i : nat) (news : list article) : list article :=
  match news with
  | [] => []
  | n :: rest => if kept i n then n :: select (S i) rest else select (S i) rest
  end.

End Run.

(** The text lists handed to the classifier, in order. *)
Fixpoint batch_calls (tr : list event) : list (list string) :=
  match tr with
  | [] => []
  | AnalyzeBatch texts :: r => texts :: batch_calls r
  | ComputeIndex _ _ :: r => batch_calls r
  end.

(** The arguments of the calls of [compute_index], in order. *)
Fixpoint index_calls (tr : list event)
  : list (list SentimentScores * list R) :=
  match tr with
  | [] => []
  | AnalyzeBatch _ :: r => index_calls r
  | ComputeIndex scores weights :: r => (scores, weights) :: index_calls r
  end.

(** The id a record gets in the result: [str(raw.get("url", ""))]. *)
Definition doc_id (raw : article) : string := py_str (get_default (url raw)).

(** How many of the weights belong to documents with the id [x]; document
    [k] of the result carries weight [k]. *)
Definition contributions (x : string) (docs : list DocumentSentiment)
  (weights : list R) : nat :=
  List.length (filter (fun dw => String.eqb (id (fst dw)) x)
                      (combine docs weights)).

(** A weight that belongs to a document: some recency weight in (0,1]
    times the impact weight of the score and the text of that document. *)
Definition weight_of (d : DocumentSentiment) (w : R) : Prop :=
  exists rw : Q, (0 < rw <= 1)%Q /\
                 w = (Q2R rw * _impact_weight (sentiment d) (text d))%R.

(** How many records of the snapshot carry the id [x]. *)
Definition occurrences (x : string) (news : list article) : nat :=
  List.length (filter (fun n => String.eqb (doc_id n) x) news).

(** *** Files *)

Import Json.

(** [DocumentSentiment.to_dict] *)
Definition to_dict (self : DocumentSentiment) : dict :=
  let d := [ ("source", JStr (source self));
             ("id", JStr (id self));
             ("timestamp", JStr (doc_timestamp self));
             ("text", JStr (text self)) ] in
  dict_update d [ ("positive", JNum (positive (sentiment self)));
                  ("negative", JNum (negative (sentiment self)));
                  ("neutral", JNum (neutral (sentiment self))) ].

(** [_load_json] *)
Definition _load_json (st : store) (path : string) : loaded json :=
  match st path with
  | None => Done (JArr [])
  | Some Garbled => JSONDecodeError
  | Some (Doc j) => Done j
  end.

(** [list(v)] for a decoded document: the items of an array, the keys of an
    object, the characters of a string; nothing else can be iterated. *)
Definition py_list (v : json) : loaded (list json) :=
  match v with
  | JArr items => Done items
  | JObj fields => Done (map (fun kv => JStr (fst kv)) fields)
  | JStr s =>
      Done (map (fun c => JStr (String c EmptyString)) (list_ascii_of_string s))
  | _ => Uncaught TypeError
  end.

(** [_load_news] *)
Definition _load_news (st : store) : loaded (list json) :=
  match _load_json st NEWS_JSON_PATH with
  | Done v => py_list (if py_truthy v then v else JArr [])
  | JSONDecodeError => JSONDecodeError
  | Uncaught e => Uncaught e
  end.

Section Output.

(** [datetime.isoformat], which printed the clock reading kept in the
    result. *)
Variable isoformat : Z -> string.

(** The dictionary [analyze_documents] returns, as the document
    [json.dumps] writes. *)
Definition result_json (r : result) : json :=
  JObj [ ("timestamp", JStr (isoformat (res_timestamp r)));
         ("news", JObj [ ("count", JNum (INR (res_count r)));
                         ("documents",
                          JArr (map (fun d => JObj (to_dict d))
                                    (res_documents r)));
                         ("nw", JNum (res_nw r));
                         ("nw_norm", JNum (res_nw_norm r)) ]);
         ("gsi", JNum (res_gsi r));
         ("classification", JStr (res_classification r)) ].

(** [gsi_payload] of [save_results] *)
Definition gsi_payload (r : result) : json :=
  JObj [ ("timestamp", JStr (isoformat (res_timestamp r)));
         ("gsi", JNum (res_gsi r));
         ("classification", JStr (res_classification r));
         ("nw_norm", JNum (res_nw_norm r)) ].

(** [save_results], when both writes go through. *)
Definition save_results (r : result) (st : store) : store :=
  let st1 := write_text SENTIMENT_RESULTS_PATH (Doc (result_json r)) st in
  write_text GSI_VALUE_PATH (Doc (gsi_payload r)) st1.

(** [save_results] on a file system that may refuse a write: the path of
    the write that raised, if one did, and the files afterwards.  The second
    write is not tried when the first one raises. *)
Definition save_results_io (fate : string -> write_fate) (r : result)
  (st : store) : option string * store :=
  let (ok1, st1) :=
    try_write fate SENTIMENT_RESULTS_PATH (Doc (result_json r)) st in
  if ok1 then
    let (ok2, st2) :=
      try_write fate GSI_VALUE_PATH (Doc (gsi_payload r)) st1 in
    (if ok2 then None else Some GSI_VALUE_PATH, st2)
  else (Some SENTIMENT_RESULTS_PATH, st1).

(** How [run_analysis_only] ends. *)
Inductive ending : Type :=
| Completed
| AnalysisRaised (e : exn)
| WriteRaised (path : string).

(** [run_analysis_only], on the snapshot [news_raw] that was loaded: the
    calls made, how the run ended, and the files afterwards. *)
Definition run_analysis_only
  (fate : string -> write_fate)
  (fromisoformat : string -> option datetime)
  (analyze_batch : list string -> outcome (list SentimentScores))
  (compute_index : list SentimentScores -> list R -> outcome IndexComponents)
  (now_at : nat -> Z) (now_end : Z)
  (news_raw : list article) (st : store)
  : list event * ending * store :=
  match analyze_documents fromisoformat analyze_batch compute_index
                          now_at now_end news_raw with
  | (tr, Ok r) =>
      match save_results_io fate r st with
      | (None, st') => (tr, Completed, st')
      | (Some path, st') => (tr, WriteRaised path, st')
      end
  | (tr, Raise e) => (tr, AnalysisRaised e, st)
  end.

End Output.

End Sentiment.

(* ------------------------------------------------------------------ *)
(** ** Reading a band table

    Both the classifier contract and the legend of the gauge are tables of
    labelled ranges.  [label_at] reads such a table at a value: ranges are
    taken in order, each closed below and open above, the last one closed
    above as well. *)

Fixpoint label_at (entries : list (string * Z * Z)) (x : R) : option string :=
  match entries with
  | [] => None
  | (label, lo, hi) :: rest =>
      if Rle_dec (IZR lo) x then
        if Rlt_dec x (IZR hi) then Some label
        else match rest with
             | [] => if Rle_dec x (IZR hi) then Some label else None
             | _ :: _ => label_at rest x
             end
      else label_at rest x
  end.

(* ------------------------------------------------------------------ *)
(** ** [processing/index_calc.py]

    The module is imported by [sentiment.py] but is not among the sources at
    hand; its functions are written from the contract of the aggregator and
    of the classifier. *)

Module IndexCalc.

#[local] Open Scope R_scope.
#[local] Open Scope string_scope.

(** Modelled from the spec: the label table of the classifier, whose code
    ([processing/index_calc.py]) is missing.  Each band holds its label, its
    smaller and its larger bound. *)
Definition bands : list (string * Z * Z) :=
  [ ("Extremely Bearish", 0, 25);
    ("Bearish", 25, 45);
    ("Neutral", 45, 55);
    ("Bullish", 55, 75);
    ("Extremely Bullish", 75, 100) ]%Z.

(** Modelled from the spec: [classify(nw_norm)], missing with
    [processing/index_calc.py]; bands are lower-inclusive and the last one
    also holds 100. *)
Definition classify (nw_norm : R) : string :=
  if Rlt_dec nw_norm 25 then "Extremely Bearish"
  else if Rlt_dec nw_norm 45 then "Bearish"
  else if Rlt_dec nw_norm 55 then "Neutral"
  else if Rlt_dec nw_norm 75 then "Bullish"
  else "Extremely Bullish".

(** Modelled from the spec: the neutral default of [compute_index], missing
    with [processing/index_calc.py]. *)
Definition neutral_index : IndexComponents :=
  {| nw := 0; nw_norm := 50; gsi := 50; classification := "Neutral" |}.

(** Modelled from the spec: the sum of the weights, accumulated left to
    right ([processing/index_calc.py] is missing). *)
Definition total_weight (weights : list R) : R :=
  fold_left Rplus weights 0.

(** Modelled from the spec: the net weighted sentiment, the sum of
    [weight * (positive - negative)] accumulated left to right
    ([processing/index_calc.py] is missing). *)
Definition net_weighted (scores : list SentimentScores) (weights : list R) : R :=
  fold_left (fun acc sw => acc + snd sw * (positive (fst sw) - negative (fst sw)))
            (combine scores weights) 0.

(** Modelled from the spec: clamping into [0,100]
    ([processing/index_calc.py] is missing). *)
Definition clamp (x : R) : R := Rmax 0 (Rmin 100 x).

(** Modelled from the spec: [compute_index(scores, weights)], missing with
    [processing/index_calc.py].  [tol] is the bound under which a total
    weight counts as zero; the contract asks for lists of equal length. *)
Definition compute_index (tol : R) (scores : list SentimentScores)
  (weights : list R) : IndexComponents :=
  match scores with
  | [] => neutral_index
  | _ :: _ =>
      let total := total_weight weights in
      if Rle_dec (Rabs total) tol then neutral_index
      else
        let nw := net_weighted scores weights in
        let nw_norm := clamp (50 + 50 * (nw / total)) in
        {| nw := nw; nw_norm := nw_norm; gsi := nw_norm;
           classification := classify nw_norm |}
  end.

End IndexCalc.

(* ------------------------------------------------------------------ *)
(** ** [processing/dashboard.py]: the page and its gauge script *)

Module Dashboard.

#[local] Open Scope string_scope.

(** The JavaScript function [classifyGsi] of the page. *)
Definition classifyGsi (gsi : R) : string :=
  if Rlt_dec gsi 25 then "Extremely Bearish"
  else if Rlt_dec gsi 45 then "Bearish"
  else if Rlt_dec gsi 55 then "Neutral"
  else if Rlt_dec gsi 75 then "Bullish"
  else "Extremely Bullish".

(** The legend under the gauge, [<div class="bands">]: one entry per
    [<span>], the label followed by the two ends of its range. *)
Definition legend : list (string * Z * Z) :=
  [ ("Extreme Bearish", 0, 25);
    ("Bearish", 25, 45);
    ("Neutral", 45, 55);
    ("Bullish", 55, 75);
    ("Extreme Bullish", 75, 100) ]%Z.

(** The coloured arcs [drawGauge] paints: the [drawBand] calls in order. *)
Definition drawn_bands : list (Z * Z * string) :=
  [ (0, 25, "#ff0000");
    (25, 45, "#fee2e2");
    (45, 55, "#e5e7eb");
    (55, 75, "#bbf7d0");
    (75, 100, "#22c55e") ]%Z.

(** *** The result file *)

Import Json.

(** [_load_current_result]: the decoded document, [JNull] being Python's
    [None]. *)
Definition _load_current_result (st : store) : json :=
  match st SENTIMENT_RESULTS_PATH with
  | None => JNull
  | Some Garbled => JNull
  | Some (Doc j) => j
  end.

(** *** The canvas *)

#[local] Open Scope R_scope.

Definition W : R := 540.
Definition H : R := 280.
Definition cx : R := W / 2.
Definition cy : R := H * 0.9.
Definition outerR : R := Rmin (W * 0.9) (H * 1.8) / 2.
Definition innerR : R := outerR * 0.6.

Definition thetaFor (value : R) : R := PI * (1 - value / 100).

(** The point [ctx.arc(x, y, r, ...)] reaches at the angle [a].  Canvas
    angles turn clockwise from the positive x axis and y grows downwards. *)
Definition arc_point (x y r a : R) : R * R := (x + r * cos a, y + r * sin a).

(** The region [drawBand] fills: out along the outer arc from [start] down
    to [stop] (anticlockwise, so through decreasing angles), back along the
    inner arc. *)
Record sector : Type := mkSector {
  start : R;
  stop : R;
  fill : string
}.

Definition drawBand (startVal endVal : R) (color : string) : sector :=
  {| start := thetaFor startVal; stop := thetaFor endVal; fill := color |}.

Definition in_sector (s : sector) (pt : R * R) : Prop :=
  exists r a, innerR <= r <= outerR /\ stop s <= a <= start s /\
              pt = arc_point cx cy r a.

(** The tip of the needle [drawGauge] strokes from the centre. *)
Definition needle_tip (value : R) : R * R :=
  let th := thetaFor value in
  (cx + cos th * (outerR * 0.9), cy - sin th * (outerR * 0.9)).

(** [drawGauge]: the five bands and the needle (the white hub and the cap
    of the needle are left out). *)
Definition drawGauge (value : R) : list sector * (R * R) :=
  (map (fun b => drawBand (IZR (fst (fst b))) (IZR (snd (fst b))) (snd b))
       drawn_bands,
   needle_tip value).

(** *** The payload *)

(** The object the page fetches from [gsi_value.json]: each field holds a
    value of the type [save_results] writes, or is missing or [null]. *)
Record payload : Type := mkPayload {
  p_gsi : option R;
  p_classification : option string;
  p_timestamp : option string
}.

(** The integer [x.toFixed(0)] prints: the nearest one, halves away from
    zero. *)
Definition toFixed0 (x : R) : Z :=
  if Rlt_dec x 0 then (- Int_part (- x + / 2))%Z else Int_part (x + / 2).

(** What [applyPayload] puts on the page. *)
Record view : Type := mkView {
  gauge_value : R;
  value_text : Z;
  label_text : string;
  updated_text : string
}.

Section Page.

(** [new Date(ts).toLocaleString('en-US', ...)] *)
Variable toLocaleString : string -> string.

Definition formatTimestamp (tsRaw : string) : string :=
  if negb (Text.truthy tsRaw) then "" else toLocaleString tsRaw.

(** [applyPayload]; [None] is a [null] payload. *)
Definition applyPayload (p : option payload) : view :=
  let gsi :=
    match p with
    | Some q => match p_gsi q with Some x => x | None => 50 end
    | None => 50
    end in
  let classification :=
    match p with
    | Some q =>
        match p_classification q with
        | Some c => if Text.truthy c then c else classifyGsi gsi
        | None => classifyGsi gsi
        end
    | None => classifyGsi gsi
    end in
  let ts :=
    match p with
    | Some q =>
        match p_timestamp q with
        | Some t => if Text.truthy t then t else ""
        | None => ""
        end
    | None => ""
    end in
  let formatted := formatTimestamp ts in
  {| gauge_value := gsi;
     value_text := toFixed0 gsi;
     label_text := classification;
     updated_text :=
       "Last updated: " ++ (if Text.truthy formatted then formatted else "n/a") |}.

End Page.

(** [generate_dashboard]: the page is written as it stands in the source;
    it is text, not JSON. *)
Definition generate_dashboard (st : store) : store :=
  write_text DASHBOARD_HTML_PATH Garbled st.

(** The payload the page gets out of a fetched document whose fields have
    the types above; other documents are not read. *)
Definition read_payload (j : json) : option (option payload) :=
  match j with
  | JNull => Some None
  | JObj fields =>
      let num := match dict_get "gsi" fields with
                 | None | Some JNull => Some None
                 | Some (JNum x) => Some (Some x)
                 | Some _ => None
                 end in
      let str k := match dict_get k fields with
                   | None | Some JNull => Some None
                   | Some (JStr t) => Some (Some t)
                   | Some _ => None
                   end in
      match num, str "classification", str "timestamp" with
      | Some g, Some c, Some t =>
          Some (Some {| p_gsi := g; p_classification := c; p_timestamp := t |})
      | _, _, _ => None
      end
  | _ => None
  end.

End Dashboard.

(* ------------------------------------------------------------------ *)
(** ** A small snapshot for the worked examples *)

Module Fixtures.

#[local] Open Scope string_scope.

(** 2024-01-01T00:00:00Z, and a clock that shows one hour later. *)
Definition t0 : Z := 1704067200000000.
Definition clock : nat -> Z := fun _ => (t0 + 3600000000)%Z.
Definition t_end : Z := (t0 + 3600000001)%Z.

Definition article_a : article :=
  {| title := Str "Gold rallies";
     description := Null;
     content := Absent;
     timestamp := Str "2024-01-01T00:00:00Z";
     url := Str "https://example.org/a" |}.

Definition article_b : article :=
  {| title := Str "Fed signals rate cut";
     description := Str "Markets react";
     content := Absent;
     timestamp := Str "2024-01-01T00:00:00Z";
     url := Str "https://example.org/b" |}.

(** More than thirty days old on the clock above. *)
Definition article_stale : article :=
  {| title := Str "Old news";
     description := Null;
     content := Absent;
     timestamp := Str "2023-01-01T00:00:00Z";
     url := Str "https://example.org/old" |}.

(** The texts [_extract_news_text] builds from the two fresh records. *)
Definition text_a : string := "Gold rallies".
Definition text_b : string :=
  "Fed signals rate cut" ++ String " " (String "010" "Markets react").

Definition bullish : SentimentScores :=
  {| positive := 0.9; negative := 0.05; neutral := 0.05 |}.

(** The aggregator of [IndexCalc] with an exact zero test. *)
Definition index (scores : list SentimentScores) (weights : list R)
  : outcome IndexComponents :=
  Ok (IndexCalc.compute_index 0 scores weights).

(** A classifier that answers every batch with the same [n] scores. *)
Definition answers (n : nat) (texts : list string)
  : outcome (list SentimentScores) :=
  Ok (repeat bullish n).

(** A file system that takes every write, and one whose [docs] directory
    cannot be written. *)
Definition all_written : string -> Json.write_fate := fun _ => Json.Written.
Definition docs_read_only : string -> Json.write_fate :=
  fun p => if String.eqb p Json.GSI_VALUE_PATH then Json.Refused
           else Json.Written.

(** A project directory that holds nothing but the page. *)
Definition page_only : Json.store :=
  fun p => if String.eqb p Json.DASHBOARD_HTML_PATH then Some Json.Garbled
           else None.

End Fixtures.

(* ================================================================== *)
(** * Properties *)

Import Text Datetime Sentiment.

Open Scope string_scope.

(** ** Text *)

Section TextFacts.

#[local] Open Scope string_scope.

Lemma prefix_iff (k t : string) :
  prefix k t = true <-> exists post, t = k ++ post.
Proof.
  revert t; induction k as [|c k IH]; intros t.
  - split; [intros _; now exists t | intros _; destruct t; reflexivity].
  - destruct t as [|d t]; simpl.
    + split; [discriminate | intros [post H]; discriminate].
    + destruct (ascii_dec c d) as [->|ne].
      * rewrite IH. split; intros [post H]; exists post.
        -- now rewrite H.
        -- now inversion H.
      * split; [discriminate | intros [post H]; simpl in H; congruence].
Qed.

Lemma contains_nil (k : string) : contains k "" = prefix k "" || false.
Proof. reflexivity. Qed.

Lemma contains_cons (k : string) (d : ascii) (t : string) :
  contains k (String d t) = prefix k (String d t) || contains k t.
Proof. reflexivity. Qed.

Lemma contains_iff (k t : string) :
  contains k t = true <-> substring_of k t.
Proof.
  unfold substring_of.
  induction t as [|d t IH]; [rewrite contains_nil | rewrite contains_cons].
  - rewrite orb_false_r, prefix_iff. split.
    + intros [post H]. now exists "", post.
    + intros [pre [post H]]. destruct pre; simpl in H.
      * now exists post.
      * discriminate.
  - rewrite orb_true_iff, prefix_iff, IH. split.
    + intros [[post H] | [pre [post H]]].
      * now exists "", post.
      * exists (String d pre), post. simpl. now rewrite H.
    + intros [pre [post H]]. destruct pre as [|e pre]; simpl in H.
      * left. now exists post.
      * right. inversion H. now exists pre, post.
Qed.

Lemma strip_truthy_nonempty (s : string) :
  truthy (strip s) = true -> s <> "".
Proof. intros H ->. discriminate. Qed.

End TextFacts.

(** ** The recency table *)

Section RecencyFacts.

#[local] Open Scope Q_scope.

Lemma Qle_bool_false (x y : Q) : Qle_bool x y = false <-> y < x.
Proof.
  split; intros H.
  - apply Qnot_le_lt. intros L. apply Qle_bool_iff in L. congruence.
  - destruct (Qle_bool x y) eqn:E; [|reflexivity].
    apply Qle_bool_iff in E. lra.
Qed.

(** Splits every comparison of the step table and turns the outcomes into
    order facts. *)
Ltac step_cases :=
  unfold step_weight;
  repeat match goal with
         | |- context [Qle_bool ?a ?b] =>
             let E := fresh "E" in
             destruct (Qle_bool a b) eqn:E;
             [apply Qle_bool_iff in E | apply Qle_bool_false in E]
         end.

Lemma step_weight_fresh (a : Q) : a <= 1 -> step_weight a = 1 # 1.
Proof. intros H. step_cases; (reflexivity || lra). Qed.

Lemma step_weight_stale (a : Q) : 30 < a -> step_weight a = 0.
Proof. intros H. step_cases; (reflexivity || lra). Qed.

Lemma step_weight_table (a : Q) :
  (a <= 1 /\ step_weight a = 1 # 1) \/
  (1 < a <= 3 /\ step_weight a = 8 # 10) \/
  (3 < a <= 7 /\ step_weight a = 6 # 10) \/
  (7 < a <= 14 /\ step_weight a = 3 # 10) \/
  (14 < a <= 30 /\ step_weight a = 1 # 10) \/
  (30 < a /\ step_weight a = 0).
Proof.
  step_cases.
  - left; split; [lra | reflexivity].
  - right; left; split; [lra | reflexivity].
  - right; right; left; split; [lra | reflexivity].
  - right; right; right; left; split; [lra | reflexivity].
  - right; right; right; right; left; split; [lra | reflexivity].
  - right; right; right; right; right; split; [lra | reflexivity].
Qed.

Lemma step_weight_antitone (a b : Q) :
  a <= b -> step_weight b <= step_weight a.
Proof.
  intros H.
  destruct (step_weight_table a) as [[Ha ->]|[[Ha ->]|[[Ha ->]|[[Ha ->]|[[Ha ->]|[Ha ->]]]]]];
  destruct (step_weight_table b) as [[Hb ->]|[[Hb ->]|[[Hb ->]|[[Hb ->]|[[Hb ->]|[Hb ->]]]]]];
  lra.
Qed.

Lemma step_weight_range (a : Q) : 0 <= step_weight a <= 1.
Proof.
  destruct (step_weight_table a) as [[Ha ->]|[[Ha ->]|[[Ha ->]|[[Ha ->]|[[Ha ->]|[Ha ->]]]]]];
  lra.
Qed.

Lemma age_days_of_nonneg (delta_us : Z) : 0 <= age_days_of delta_us.
Proof. unfold age_days_of. apply Q.le_max_l. Qed.

(** A timestamp in the future has age 0. *)
Lemma age_days_of_future (delta_us : Z) :
  (delta_us <= 0)%Z -> age_days_of delta_us == 0.
Proof.
  intros H. unfold age_days_of.
  apply Q.max_l.
  assert (L : (delta_us # 1) <= 0) by (unfold Qle; simpl; lia).
  unfold Qdiv. 
  setoid_replace 0 with ((0 * / (1000000 # 1)) * / (86400 # 1)) by ring.
  repeat apply Qmult_le_compat_r; try assumption; discriminate.
Qed.

(** An age of exactly [d] whole days. *)
Lemma age_days_of_days (d : Z) :
  (0 <= d)%Z -> age_days_of (d * 86400000000) == d # 1.
Proof.
  intros H. unfold age_days_of.
  assert (E : ((d * 86400000000 # 1) / (1000000 # 1)) / (86400 # 1) == d # 1).
  { unfold Qdiv, Qeq; simpl. lia. }
  rewrite E. apply Q.max_r. unfold Qle; simpl; lia.
Qed.

End RecencyFacts.

(** ** [_recency_weight] *)

Section RecencyWeightFacts.

Variable fromisoformat : string -> option datetime.

#[local] Open Scope string_scope.

Lemma truthy_nonempty (s : string) : truthy s = true <-> s <> "".
Proof. destruct s; simpl; split; congruence. Qed.

Lemma recency_weight_missing (now : Z) :
  _recency_weight fromisoformat now None = Ok 0%Q /\
  _recency_weight fromisoformat now (Some "") = Ok 0%Q.
Proof. split; reflexivity. Qed.

Lemma recency_weight_unparsable (now : Z) (s : string) :
  fromisoformat (replace "Z" "+00:00" s) = None ->
  _recency_weight fromisoformat now (Some s) = Ok 0%Q.
Proof.
  intros H. unfold _recency_weight. rewrite H. now destruct (truthy s).
Qed.

Lemma recency_weight_aware (now : Z) (s : string) (ts : datetime) (off : Z) :
  s <> "" ->
  fromisoformat (replace "Z" "+00:00" s) = Some ts ->
  utcoffset_us ts = Some off ->
  _recency_weight fromisoformat now (Some s)
  = Ok (step_weight (age_days_of (now - 0 - (wall_us ts - off)))).
Proof.
  intros Hs Hp Ho. apply truthy_nonempty in Hs.
  unfold _recency_weight, Datetime.sub. rewrite Hs, Hp. simpl.
  now rewrite Ho.
Qed.

Lemma recency_weight_naive (now : Z) (s : string) (ts : datetime) :
  s <> "" ->
  fromisoformat (replace "Z" "+00:00" s) = Some ts ->
  utcoffset_us ts = None ->
  _recency_weight fromisoformat now (Some s) = Raise TypeError.
Proof.
  intros Hs Hp Ho. apply truthy_nonempty in Hs.
  unfold _recency_weight, Datetime.sub. rewrite Hs, Hp. simpl.
  now rewrite Ho.
Qed.

Lemma recency_weight_range (now : Z) (v : option string) (w : Q) :
  _recency_weight fromisoformat now v = Ok w -> (0 <= w <= 1)%Q.
Proof.
  unfold _recency_weight. intros H.
  destruct v as [s|]; [|inversion H; lra].
  destruct (negb (truthy s)); [inversion H; lra|].
  destruct (fromisoformat _) as [ts|]; [|inversion H; lra].
  destruct (Datetime.sub _ _) as [d|e]; [|discriminate].
  inversion H. apply step_weight_range.
Qed.

(** What the function does on a timestamp that carries a UTC offset: the
    age is the clock reading minus the instant of the timestamp, floored at
    0, and the weight is read off the step table; in particular it is 1.0
    up to one day (future timestamps included) and 0.0 beyond thirty. *)
Lemma recency_weight_of_aware (now : Z) (s : string) (ts : datetime) (off : Z) :
  s <> "" ->
  fromisoformat (replace "Z" "+00:00" s) = Some ts ->
  utcoffset_us ts = Some off ->
  let delta := (now - 0 - (wall_us ts - off))%Z in
  exists w, _recency_weight fromisoformat now (Some s) = Ok w /\
    w = step_weight (age_days_of delta) /\
    ((delta <= 86400000000)%Z -> w = 1 # 1) /\
    ((30 * 86400000000 < delta)%Z -> w = 0%Q).
Proof.
  intros Hs Hp Ho delta. eexists. split; [exact (recency_weight_aware now Hs Hp Ho)|].
  fold delta. split; [reflexivity|]. split; intros H.
  - apply step_weight_fresh. unfold age_days_of.
    apply Q.max_lub; [lra|]. unfold Qdiv, Qle; simpl. lia.
  - apply step_weight_stale. unfold age_days_of.
    apply Qlt_le_trans with (((delta # 1) / (1000000 # 1)) / (86400 # 1))%Q.
    + unfold Qdiv, Qlt; simpl. lia.
    + apply Q.le_max_r.
Qed.

(** C3, at the timestamp that breaks it.  A timestamp with no UTC offset is
    read without error, and the subtraction from the aware clock reading
    then raises: the function returns no weight at all, whatever the clock
    shows. *)
Theorem recency_weight_naive_timestamp_raises :
  forall now : Z,
    fromisoformat_ref "2024-01-01T00:00:00"
    = Some {| wall_us := 1704067200000000; utcoffset_us := None |} /\
    _recency_weight fromisoformat_ref now (Some "2024-01-01T00:00:00")
    = Raise TypeError.
Proof. intros now. split; reflexivity. Qed.

(** C9, as the code has it.  The intervals of the table are closed at their
    larger bound: an age of exactly 1, 3, 7, 14 or 30 days still gets the
    weight of the interval below it (1.0, 0.8, 0.6, 0.3, 0.1), and one
    microsecond more gets the next one (0.8, 0.6, 0.3, 0.1, 0.0). *)
Theorem recency_boundaries_upper_inclusive
  (now : Z) (s : string) (ts : datetime) (off d : Z) :
  s <> "" ->
  fromisoformat (replace "Z" "+00:00" s) = Some ts ->
  utcoffset_us ts = Some off ->
  In d [1; 3; 7; 14; 30]%Z ->
  ((now - 0 - (wall_us ts - off) = d * 86400000000)%Z ->
   _recency_weight fromisoformat now (Some s)
   = Ok (if d =? 1 then 1 # 1 else if d =? 3 then 8 # 10
         else if d =? 7 then 6 # 10 else if d =? 14 then 3 # 10
         else 1 # 10)%Z) /\
  ((now - 0 - (wall_us ts - off) = d * 86400000000 + 1)%Z ->
   _recency_weight fromisoformat now (Some s)
   = Ok (if d =? 1 then 8 # 10 else if d =? 3 then 6 # 10
         else if d =? 7 then 3 # 10 else if d =? 14 then 1 # 10
         else 0%Q)%Z).
Proof.
  intros Hs Hp Ho Hd.
  rewrite (recency_weight_aware now Hs Hp Ho).
  simpl in Hd.
  split; intros ->;
    repeat (destruct Hd as [<-|Hd]; [reflexivity|]); contradiction.
Qed.

End RecencyWeightFacts.

(** The timestamp 2024-01-01T00:00:00Z read three days later. *)
Lemma recency_boundaries_upper_inclusive_witness :
  _recency_weight fromisoformat_ref (1704067200000000 + 3 * 86400000000)
                  (Some "2024-01-01T00:00:00Z") = Ok (8 # 10).
Proof.
  apply (proj1 (@recency_boundaries_upper_inclusive
                  fromisoformat_ref
                  (1704067200000000 + 3 * 86400000000)
                  "2024-01-01T00:00:00Z"
                  {| wall_us := 1704067200000000; utcoffset_us := Some 0%Z |}
                  0 3 ltac:(discriminate) eq_refl eq_refl
                  ltac:(simpl; tauto))).
  reflexivity.
Defined.

(** C9, as stated, fails: a timestamp exactly one day old is weighted 1.0,
    not 0.8. *)
Lemma recency_boundary_one_day_counterexample :
  _recency_weight fromisoformat_ref (1704067200000000 + 86400000000)
                  (Some "2024-01-01T00:00:00Z") = Ok (1 # 1) /\
  ~ (1 # 1 == 8 # 10)%Q.
Proof. split; [reflexivity | discriminate]. Qed.

(** ** Letter case *)

Section CaseFacts.

Lemma lower_app (a b : string) : lower (a ++ b) = (lower a ++ lower b)%string.
Proof. induction a as [|c a IH]; simpl; [reflexivity | now rewrite IH]. Qed.

(** [lower_ascii] gives the letter itself or, for a capital, the letter 32
    places further on, and never a capital. *)
Lemma lower_ascii_spec (c : ascii) :
  same_letter c (lower_ascii c) /\ is_upper (lower_ascii c) = false.
Proof.
  destruct c as [[] [] [] [] [] [] [] []];
    (split; [first [left; reflexivity | right; split; reflexivity]
            | reflexivity]).
Qed.

Lemma same_letter_lower (c k : ascii) :
  is_upper k = false -> (same_letter c k <-> lower_ascii c = k).
Proof.
  intros Hk. split.
  - intros [->|[Hc E]].
    + unfold lower_ascii. unfold is_upper in Hk. now rewrite Hk.
    + unfold lower_ascii. unfold is_upper in Hc. rewrite Hc, <- E.
      apply ascii_nat_embedding.
  - intros <-. apply lower_ascii_spec.
Qed.

Lemma spelled_lower (mid : string) :
  forall k, no_upper k = true -> (spelled mid k <-> lower mid = k).
Proof.
  induction mid as [|c m IH]; intros [|d k] Hk; simpl;
    try (split; [tauto || discriminate | discriminate]).
  - split; [reflexivity | trivial].
  - simpl in Hk. apply andb_true_iff in Hk. destruct Hk as [Hd Hk].
    apply negb_true_iff in Hd.
    rewrite (@same_letter_lower c d Hd), (IH k Hk). split.
    + intros [-> ->]. reflexivity.
    + intros E. inversion E. now split.
Qed.

(** [lower] works character by character: a split of the lower-cased text
    comes from a split of the text. *)
Lemma lower_split (a : string) :
  forall t b, lower t = (a ++ b)%string ->
              exists t1 t2, t = (t1 ++ t2)%string /\ lower t1 = a /\ lower t2 = b.
Proof.
  induction a as [|c a IH]; intros t b H.
  - exists "", t. now repeat split.
  - destruct t as [|d t]; [discriminate|]. simpl in H. inversion H as [[Hc Hr]].
    destruct (@IH t b Hr) as [t1 [t2 [-> [H1 H2]]]].
    exists (String d t1), t2. simpl. rewrite H1. now repeat split.
Qed.

Lemma lower_spelled (text : string) :
  spelled text (lower text) /\ no_upper (lower text) = true.
Proof.
  induction text as [|c t [IH1 IH2]]; simpl; [now split|].
  destruct (lower_ascii_spec c) as [S U]. rewrite U, IH2. now repeat split.
Qed.

Lemma keywords_no_upper (k : string) :
  In k HIGH_IMPACT_KEYWORDS -> no_upper k = true.
Proof.
  unfold HIGH_IMPACT_KEYWORDS. simpl.
  intros H. repeat (destruct H as [<-|H]; [reflexivity|]). contradiction.
Qed.

(** The test of the code and the test of the contract agree. *)
Lemma keyword_hit_caseless (text : string) :
  keyword_hit text <-> caseless_hit text.
Proof.
  unfold keyword_hit, caseless_hit, substring_of. split.
  - intros [k [Hin [pre' [post' E]]]].
    destruct (@lower_split _ _ _ E) as [pre [rest [-> [_ Hr]]]].
    destruct (@lower_split _ _ _ Hr) as [mid [post [-> [Hm _]]]].
    exists k, pre, mid, post. repeat split; try assumption.
    now apply (@spelled_lower mid k (@keywords_no_upper k Hin)).
  - intros [k [pre [mid [post [Hin [-> Hs]]]]]].
    exists k. split; [assumption|].
    exists (lower pre), (lower post). rewrite !lower_app.
    now rewrite (proj1 (@spelled_lower mid k (@keywords_no_upper k Hin)) Hs).
Qed.

End CaseFacts.

(** ** [_impact_weight] *)

Section ImpactFacts.

#[local] Open Scope R_scope.

Lemma keyword_hit_iff (text : string) :
  existsb (fun k => contains k (lower text)) HIGH_IMPACT_KEYWORDS = true
  <-> keyword_hit text.
Proof.
  unfold keyword_hit. rewrite existsb_exists.
  split; intros [k [Hin Hk]]; exists k; split; trivial;
    now apply contains_iff.
Qed.

Lemma impact_boost_hit (text : string) :
  keyword_hit text -> impact_boost_of (lower text) = 3.0.
Proof.
  intros H. apply keyword_hit_iff in H. unfold impact_boost_of. now rewrite H.
Qed.

Lemma impact_boost_miss (text : string) :
  ~ keyword_hit text -> impact_boost_of (lower text) = 1.0.
Proof.
  intros H. unfold impact_boost_of.
  destruct (existsb _ _) eqn:E; [|reflexivity].
  apply keyword_hit_iff in E. contradiction.
Qed.

Lemma impact_boost_range (txt : string) : 1 <= impact_boost_of txt <= 3.
Proof. unfold impact_boost_of. destruct (existsb _ _); lra. Qed.

Lemma base_floor (margin : R) : 1e-3 <= Rmax margin 1e-3.
Proof. apply Rmax_r. Qed.

Lemma Rpower_pos (b g : R) : 0 < Rpower b g.
Proof. unfold Rpower. apply exp_pos. Qed.

Lemma Rpower_le_one (b g : R) : 0 < b <= 1 -> 0 <= g -> Rpower b g <= 1.
Proof.
  intros [Hb Hb1] Hg.
  replace 1 with (Rpower 1 g).
  - apply Rle_Rpower_l; [assumption | split; assumption].
  - unfold Rpower. rewrite ln_1, Rmult_0_r. apply exp_0.
Qed.

Lemma impact_weight_pos (score : SentimentScores) (text : string) :
  0 < _impact_weight score text.
Proof.
  unfold _impact_weight.
  apply Rmult_lt_0_compat; [apply Rpower_pos|].
  pose proof (impact_boost_range (lower text)). lra.
Qed.

Lemma impact_weight_unit_range (score : SentimentScores) (text : string) :
  0 <= positive score <= 1 -> 0 <= negative score <= 1 ->
  0 < _impact_weight score text <= 3.
Proof.
  intros Hp Hn. split; [apply impact_weight_pos|].
  unfold _impact_weight.
  set (base := Rmax (Rabs (positive score - negative score)) 1e-3).
  assert (Hb : 0 < base <= 1).
  { pose proof (base_floor (Rabs (positive score - negative score))).
    fold base in H. split; [lra|].
    unfold base. apply Rmax_lub; [|lra].
    apply Rabs_le. lra. }
  pose proof (Rpower_pos base 1.5) as P0.
  assert (P1 : Rpower base 1.5 <= 1) by (apply Rpower_le_one; [assumption|lra]).
  pose proof (impact_boost_range (lower text)) as B.
  nra.
Qed.

(** C4.  The impact weight is [max(|positive - negative|, 0.001) ** 1.5]
    times a boost, the boost being 3.0 when a keyword of the list occurs in
    the lower-cased text and 1.0 when none does; it is strictly positive
    for every score, and with [positive = negative] its base is the floor
    0.001.  Lower-casing is what makes the test blind to letter case: the
    boost is 3.0 as soon as a stretch of the text spells a keyword in any
    mix of upper and lower case, on ASCII text it is 1.0 when no stretch
    does, and the lower-cased ASCII text has the same letters and no
    capital. *)
Theorem impact_weight_formula (score : SentimentScores) (text : string) :
  let epsilon := 0.001 in
  let gamma := 1.5 in
  let base := Rmax (Rabs (positive score - negative score)) epsilon in
  (keyword_hit text -> _impact_weight score text = Rpower base gamma * 3.0) /\
  (~ keyword_hit text -> _impact_weight score text = Rpower base gamma * 1.0) /\
  0 < _impact_weight score text /\
  _impact_weight score text <> 0 /\
  (positive score = negative score -> base = epsilon) /\
  (caseless_hit text -> _impact_weight score text = Rpower base gamma * 3.0) /\
  (ascii_only text = true -> ~ caseless_hit text ->
   _impact_weight score text = Rpower base gamma * 1.0) /\
  (ascii_only text = true ->
   spelled text (lower text) /\ no_upper (lower text) = true).
Proof.
  intros epsilon gamma base.
  assert (E : (1e-3 : R) = epsilon) by (unfold epsilon; lra).
  assert (Hit : keyword_hit text ->
                _impact_weight score text = Rpower base gamma * 3.0).
  { intros H. unfold _impact_weight. rewrite (impact_boost_hit H).
    fold gamma. rewrite E. reflexivity. }
  assert (Miss : ~ keyword_hit text ->
                 _impact_weight score text = Rpower base gamma * 1.0).
  { intros H. unfold _impact_weight. rewrite (impact_boost_miss H).
    fold gamma. rewrite E. reflexivity. }
  split; [exact Hit|]. split; [exact Miss|].
  split; [apply impact_weight_pos|].
  split; [pose proof (impact_weight_pos score text); lra|].
  split.
  { intros H. unfold base. rewrite H, Rminus_diag, Rabs_R0.
    apply Rmax_right. unfold epsilon. lra. }
  split; [|split].
  - intros H. apply Hit. now apply keyword_hit_caseless.
  - intros _ H. apply Miss. intros K. apply H. now apply keyword_hit_caseless.
  - intros _. apply lower_spelled.
Qed.

End ImpactFacts.

(** A headline naming the Fed in capitals is boosted threefold. *)
Lemma impact_weight_formula_witness :
  _impact_weight (mkScores 0.9 0.05 0.05) "FED holds rates"
  = (Rpower (Rmax (Rabs (0.9 - 0.05)) 0.001) 1.5 * 3.0)%R.
Proof.
  apply (proj1 (proj2 (proj2 (proj2 (proj2 (proj2
           (impact_weight_formula (mkScores 0.9 0.05 0.05)
                                  "FED holds rates"))))))).
  exists "fed", "", "FED", " holds rates".
  split; [simpl; tauto|]. split; [reflexivity|].
  simpl. repeat split; right; split; reflexivity.
Defined.

(** ** The run *)

Section RunFacts.

Variable fromisoformat : string -> option datetime.
Variable analyze_batch : list string -> outcome (list SentimentScores).
Variable compute_index :
  list SentimentScores -> list R -> outcome IndexComponents.
Variable now_at : nat -> Z.
Variable now_end : Z.

#[local] Abbreviation rw := (_recency_weight fromisoformat).
#[local] Abbreviation collect' := (collect fromisoformat now_at).
#[local] Abbreviation kept' := (kept fromisoformat now_at).
#[local] Abbreviation select' := (select fromisoformat now_at).
#[local] Abbreviation run_of :=
  (analyze_documents fromisoformat analyze_batch compute_index now_at now_end).

(** The trace monad obeys the monad laws. *)
Lemma bind_ret_l (A B : Type) (a : A) (k : A -> M B) : bind (ret a) k = k a.
Proof. unfold bind, ret. now destruct (k a). Qed.

Lemma bind_ret_r (A : Type) (m : M A) : bind m ret = m.
Proof.
  destruct m as [tr [a|e]]; simpl; [|reflexivity].
  now rewrite app_nil_r.
Qed.

Lemma bind_assoc (A B C : Type) (m : M A) (k : A -> M B) (h : B -> M C) :
  bind (bind m k) h = bind m (fun a => bind (k a) h).
Proof.
  destruct m as [tr [a|e]]; simpl; [|reflexivity].
  destruct (k a) as [tr1 [b|e]]; simpl; [|reflexivity].
  destruct (h b) as [tr2 r]. now rewrite app_assoc.
Qed.

(** A record is kept exactly when its weight is positive and its text has
    something besides white space. *)
Lemma kept_true (i : nat) (n : article) :
  kept' i n = true <->
  exists w, rw (now_at i) (get_default (timestamp n)) = Ok w /\
            (0 < w)%Q /\ truthy (strip (_extract_news_text n)) = true.
Proof.
  unfold kept. destruct (rw _ _) as [w|e].
  - rewrite andb_true_iff, negb_true_iff, Qle_bool_false. split.
    + intros [H1 H2]. now exists w.
    + intros [w' [E [H1 H2]]]. inversion E; subst. now split.
  - split; [discriminate | intros [w [E _]]; discriminate].
Qed.

Lemma kept_false (i : nat) (n : article) :
  (forall w, rw (now_at i) (get_default (timestamp n)) = Ok w -> (w <= 0)%Q)
  \/ _extract_news_text n = "" ->
  kept' i n = false.
Proof.
  intros H. destruct (kept' i n) eqn:E; [|reflexivity].
  apply kept_true in E. destruct E as [w [E [Hw Ht]]].
  destruct H as [H|H].
  - specialize (H w E). lra.
  - rewrite H in Ht. discriminate.
Qed.

(** The first loop computes the selection, together with the texts and the
    weights of the selected records. *)
Lemma collect_select (news : list article) :
  forall i items ws texts,
    collect' i news = Ok (items, ws, texts) ->
    items = select' i news /\
    texts = map _extract_news_text items /\
    List.length ws = List.length items /\
    Forall (fun w => (0 < w <= 1)%Q) ws /\
    Forall (fun t => truthy (strip t) = true) texts.
Proof.
  induction news as [|n rest IH]; intros i items ws texts H; simpl in H.
  - inversion H; subst. simpl. repeat split; constructor.
  - unfold kept in *. simpl. unfold kept.
    destruct (rw (now_at i) (get_default (timestamp n))) as [w|e] eqn:Ew;
      [|discriminate].
    destruct (Qle_bool w 0) eqn:Eq; simpl.
    + now apply IH.
    + destruct (truthy (strip (_extract_news_text n))) eqn:Et; simpl in *.
      * destruct (collect' (S i) rest) as [[[it' ws'] tx']|e] eqn:Ec;
          [|discriminate].
        inversion H; subst.
        destruct (IH _ _ _ _ Ec) as [H1 [H2 [H3 [H4 H5]]]].
        repeat split.
        -- now rewrite H1.
        -- simpl. now rewrite H2.
        -- simpl. now rewrite H3.
        -- constructor; [|assumption].
           apply Qle_bool_false in Eq.
           pose proof (recency_weight_range _ _ _ Ew). lra.
        -- constructor; assumption.
      * now apply IH.
Qed.

(** The three shapes a run can take once the first loop has returned. *)
Lemma run_no_texts (news_raw items : list article) (ws : list Q) :
  collect' 0 news_raw = Ok (items, ws, []) ->
  run_of news_raw =
  ([ComputeIndex [] []],
   match compute_index [] [] with
   | Ok c => Ok (build_result now_end [] c)
   | Raise e => Raise e
   end).
Proof.
  intros H. unfold analyze_documents, lift, bind. rewrite H. simpl.
  destruct items; simpl; destruct (compute_index [] []); reflexivity.
Qed.

Lemma run_classifier_raises (news_raw items : list article) (ws : list Q)
  (texts : list string) (e : exn) :
  collect' 0 news_raw = Ok (items, ws, texts) -> texts <> [] ->
  analyze_batch texts = Raise e ->
  run_of news_raw = ([AnalyzeBatch texts], Raise e).
Proof.
  intros H Hn Hb. unfold analyze_documents, lift, bind. rewrite H. simpl.
  destruct texts as [|t ts]; [contradiction|].
  unfold call_analyze_batch. now rewrite Hb.
Qed.

Lemma run_classifier_returns (news_raw items : list article) (ws : list Q)
  (texts : list string) (scores : list SentimentScores) :
  collect' 0 news_raw = Ok (items, ws, texts) -> texts <> [] ->
  analyze_batch texts = Ok scores ->
  run_of news_raw =
  ([AnalyzeBatch texts; ComputeIndex scores (effective_weights_of scores ws texts)],
   match compute_index scores (effective_weights_of scores ws texts) with
   | Ok c => Ok (build_result now_end (news_docs_of items scores) c)
   | Raise e => Raise e
   end).
Proof.
  intros H Hn Hb. unfold analyze_documents, lift, bind. rewrite H. simpl.
  destruct texts as [|t ts]; [contradiction|].
  unfold call_analyze_batch, call_compute_index. rewrite Hb.
  destruct (compute_index _ _); reflexivity.
Qed.

Lemma run_collect_raises (news_raw : list article) (e : exn) :
  collect' 0 news_raw = Raise e -> run_of news_raw = ([], Raise e).
Proof.
  intros H. unfold analyze_documents, lift, bind. now rewrite H.
Qed.

(** *** What reaches the classifier *)

(** C5.  The classifier is called at most once, with the texts of the kept
    records and nothing else, and not at all when no record is kept; a kept
    record has a positive recency weight and a text that is not empty, so a
    record whose weight is not positive or whose text is empty is not kept. *)
Theorem classifier_called_once_on_kept_texts (news_raw : list article) :
  let calls := batch_calls (fst (run_of news_raw)) in
  let sent := map _extract_news_text (select' 0 news_raw) in
  (calls = [] \/ calls = [sent]) /\
  (sent = [] -> calls = []) /\
  (List.length calls <= 1)%nat /\
  (forall texts t, In texts calls -> In t texts -> t <> "" /\ strip t <> "") /\
  (forall i n,
      (forall w, rw (now_at i) (get_default (timestamp n)) = Ok w -> (w <= 0)%Q)
      \/ _extract_news_text n = "" ->
      kept' i n = false).
Proof.
  intros calls sent.
  assert (Hcalls : calls = [] \/ (calls = [sent] /\ sent <> [] /\
            Forall (fun t => truthy (strip t) = true) sent)).
  { unfold calls, sent.
    destruct (collect' 0 news_raw) as [[[items ws] texts]|e] eqn:Ec.
    - destruct (collect_select _ _ Ec) as [H1 [H2 [_ [_ H5]]]].
      destruct texts as [|t ts].
      + rewrite (run_no_texts _ Ec). now left.
      + assert (Hn : t :: ts <> []) by discriminate.
        destruct (analyze_batch (t :: ts)) as [scores|e] eqn:Eb.
        * rewrite (run_classifier_returns _ Ec Hn Eb). right. simpl.
          rewrite <- H1, <- H2. repeat split; assumption.
        * rewrite (run_classifier_raises _ Ec Hn Eb). right. simpl.
          rewrite <- H1, <- H2. repeat split; assumption.
    - rewrite (run_collect_raises _ Ec). now left. }
  repeat split.
  - destruct Hcalls as [H|[H _]]; [now left | now right].
  - intros Hs. destruct Hcalls as [H|[_ [H _]]]; [assumption | contradiction].
  - destruct Hcalls as [->|[-> _]]; simpl; lia.
  - destruct Hcalls as [E|[E [_ F]]]; rewrite E in H; simpl in H;
      [contradiction|].
    destruct H as [<-|[]]. rewrite Forall_forall in F.
    apply strip_truthy_nonempty. now apply F.
  - destruct Hcalls as [E|[E [_ F]]]; rewrite E in H; simpl in H;
      [contradiction|].
    destruct H as [<-|[]]. rewrite Forall_forall in F.
    specialize (F _ H0). intros Hs. rewrite Hs in F. discriminate.
  - apply kept_false.
Qed.

(** *** What reaches the aggregator *)

Lemma effective_weights_length (scores : list SentimentScores) :
  forall (ws : list Q) (texts : list string),
    List.length ws = List.length texts ->
    List.length (effective_weights_of scores ws texts)
    = Nat.min (List.length scores) (List.length texts).
Proof.
  induction scores as [|s ss IH]; intros [|w ws] [|t ts] H; simpl in *;
    try reflexivity; try discriminate.
  f_equal. apply IH. lia.
Qed.

Lemma effective_weights_range (scores : list SentimentScores) :
  forall (ws : list Q) (texts : list string),
    Forall (fun w => (0 < w <= 1)%Q) ws ->
    Forall (fun s => 0 <= positive s <= 1 /\ 0 <= negative s <= 1)%R scores ->
    Forall (fun w => 0 < w <= 3)%R (effective_weights_of scores ws texts).
Proof.
  induction scores as [|s ss IH]; intros [|w ws] [|t ts] Hw Hs; simpl;
    try constructor.
  - inversion Hw as [|? ? [W0 W1] Hw']; subst.
    inversion Hs as [|? ? [Sp Sn] Hs']; subst.
    pose proof (@impact_weight_unit_range s t Sp Sn) as [I0 I1].
    apply Qlt_Rlt in W0. apply Qle_Rle in W1.
    replace (Q2R 0) with 0%R in W0 by (unfold Q2R; simpl; lra).
    replace (Q2R 1) with 1%R in W1 by (unfold Q2R; simpl; lra).
    nra.
  - inversion Hw; inversion Hs; subst. now apply IH.
Qed.

(** The calls of [compute_index] made by a run: none, or one. *)
Lemma index_calls_of_run (news_raw : list article)
  (scores : list SentimentScores) (weights : list R) :
  In (scores, weights) (index_calls (fst (run_of news_raw))) ->
  exists items ws texts,
    collect' 0 news_raw = Ok (items, ws, texts) /\
    weights = effective_weights_of scores ws texts /\
    index_calls (fst (run_of news_raw)) = [(scores, weights)] /\
    ((texts = [] /\ scores = []) \/
     (texts <> [] /\ analyze_batch texts = Ok scores)).
Proof.
  destruct (collect' 0 news_raw) as [[[items ws] texts]|e] eqn:Ec.
  - destruct texts as [|t ts].
    + rewrite (run_no_texts _ Ec). simpl. intros [H|[]]. inversion H; subst.
      exists items, ws, []. repeat split. now left.
    + assert (Hn : t :: ts <> []) by discriminate.
      destruct (analyze_batch (t :: ts)) as [sc|e] eqn:Eb.
      * rewrite (run_classifier_returns _ Ec Hn Eb). simpl.
        intros [H|[]]. inversion H; subst.
        exists items, ws, (t :: ts). repeat split. now right.
      * rewrite (run_classifier_raises _ Ec Hn Eb). simpl. contradiction.
  - rewrite (run_collect_raises _ Ec). simpl. contradiction.
Qed.

(** C7, as the code has it.  A classifier that raises fails the run before
    any index is computed.  A classifier that returns is trusted: its scores
    go to [compute_index] with one weight per score for which a text exists,
    so the two lists have equal length exactly when there are no more
    scores than texts, there is a weight for every kept record exactly when
    there are at least as many scores as texts, and both hold exactly when
    there is one score per text. *)
Theorem classifier_failure_fails_run (news_raw items : list article)
  (ws : list Q) (texts : list string) :
  collect' 0 news_raw = Ok (items, ws, texts) ->
  texts <> [] ->
  let run := run_of news_raw in
  (forall e, analyze_batch texts = Raise e ->
     run = ([AnalyzeBatch texts], Raise e) /\ index_calls (fst run) = []) /\
  (forall scores, analyze_batch texts = Ok scores ->
     exists weights,
       index_calls (fst run) = [(scores, weights)] /\
       List.length weights = Nat.min (List.length scores) (List.length texts) /\
       (List.length scores = List.length weights
        <-> (List.length scores <= List.length texts)%nat) /\
       (List.length weights = List.length (select' 0 news_raw)
        <-> (List.length texts <= List.length scores)%nat) /\
       (List.length scores = List.length texts
        <-> List.length scores = List.length weights /\
            List.length weights = List.length (select' 0 news_raw)) /\
       List.length texts = List.length (select' 0 news_raw)).
Proof.
  intros Ec Hn run.
  destruct (collect_select _ _ Ec) as [H1 [H2 [H3 _]]].
  assert (L : List.length ws = List.length texts).
  { rewrite H3, H2. now rewrite length_map. }
  split.
  - intros e Eb. unfold run. rewrite (run_classifier_raises _ Ec Hn Eb).
    now split.
  - intros scores Eb. unfold run.
    rewrite (run_classifier_returns _ Ec Hn Eb). simpl.
    eexists. split; [reflexivity|].
    rewrite (effective_weights_length scores _ _ L).
    assert (K : List.length texts = List.length (select' 0 news_raw)).
    { now rewrite <- H1, <- H3, L. }
    rewrite <- K. repeat split; try lia.
Qed.

(** *** Documents and weights *)

Lemma contributions_le_items (x : string) (items : list article) :
  forall (scores : list SentimentScores) (ws : list Q) (texts : list string),
    (contributions x (news_docs_of items scores)
                   (effective_weights_of scores ws texts)
     <= occurrences x items)%nat.
Proof.
  unfold contributions, occurrences.
  induction items as [|n rest IH]; intros scores ws texts.
  - simpl. lia.
  - destruct scores as [|s ss]; [simpl; lia|].
    destruct ws as [|w ws]; [simpl; lia|].
    destruct texts as [|t ts]; [simpl; lia|].
    specialize (IH ss ws ts). simpl. unfold doc_id in *.
    destruct (String.eqb _ x); simpl; lia.
Qed.

Lemma occurrences_select (x : string) (news : list article) :
  forall i, (occurrences x (select' i news) <= occurrences x news)%nat.
Proof.
  unfold occurrences.
  induction news as [|n rest IH]; intros i; simpl; [lia|].
  specialize (IH (S i)).
  destruct (kept' i n); simpl; destruct (String.eqb (doc_id n) x); simpl; lia.
Qed.

Lemma occurrences_NoDup (x : string) (news : list article) :
  NoDup (map doc_id news) -> (occurrences x news <= 1)%nat.
Proof.
  unfold occurrences.
  induction news as [|n rest IH]; simpl; intros H; [lia|].
  inversion H as [|? ? Hnot Hrest]; subst. specialize (IH Hrest).
  destruct (String.eqb (doc_id n) x) eqn:E; [|assumption].
  apply String.eqb_eq in E. subst x. simpl.
  assert (Z0 : filter (fun n0 => String.eqb (doc_id n0) (doc_id n)) rest = []).
  { clear - Hnot. induction rest as [|m r IHr]; simpl; [reflexivity|].
    destruct (String.eqb (doc_id m) (doc_id n)) eqn:E.
    - apply String.eqb_eq in E. exfalso. apply Hnot. simpl. now left.
    - apply IHr. intros Hin. apply Hnot. simpl. now right. }
  rewrite Z0. simpl. lia.
Qed.

Lemma select_length (news : list article) :
  forall i, (List.length (select' i news) <= List.length news)%nat.
Proof.
  induction news as [|n rest IH]; intros i; simpl; [lia|].
  specialize (IH (S i)). destruct (kept' i n); simpl; lia.
Qed.

(** C8, as the code has it.  Every record of the snapshot is weighted at
    most once, so an id is weighted at most as often as the snapshot has
    records carrying it: records are not deduplicated by id, and an id is
    weighted at most once when the ids of the snapshot are distinct. *)
Theorem each_record_weighted_at_most_once (news_raw : list article)
  (tr : list event) (r : result)
  (scores : list SentimentScores) (weights : list R) (x : string) :
  run_of news_raw = (tr, Ok r) ->
  In (scores, weights) (index_calls tr) ->
  (contributions x (res_documents r) weights <= occurrences x news_raw)%nat /\
  (List.length weights <= List.length news_raw)%nat /\
  (NoDup (map doc_id news_raw) ->
   (contributions x (res_documents r) weights <= 1)%nat).
Proof.
  intros Hrun Hin.
  assert (Hin' : In (scores, weights) (index_calls (fst (run_of news_raw))))
    by now rewrite Hrun.
  destruct (index_calls_of_run _ _ _ Hin')
    as [items [ws [texts [Ec [Hw [_ Hcase]]]]]].
  assert (Hdocs : res_documents r = news_docs_of items scores).
  { destruct Hcase as [[Et Es]|[Hn Eb]].
    - rewrite Et in Ec. rewrite (run_no_texts _ Ec) in Hrun.
      destruct (compute_index [] []) as [c|e]; [|discriminate].
      injection Hrun as _ Hr. rewrite <- Hr, Es. simpl.
      now destruct items.
    - rewrite (run_classifier_returns _ Ec Hn Eb) in Hrun.
      destruct (compute_index _ _) as [c|e]; [|discriminate].
      injection Hrun as _ Hr. now rewrite <- Hr. }
  destruct (collect_select _ _ Ec) as [H1 [H2 [H3 _]]].
  assert (C : (contributions x (res_documents r) weights
               <= occurrences x news_raw)%nat).
  { rewrite Hdocs, Hw.
    pose proof (contributions_le_items x items scores ws texts).
    pose proof (occurrences_select x news_raw 0). rewrite <- H1 in H0. lia. }
  repeat split.
  - exact C.
  - assert (L : List.length ws = List.length texts)
      by (rewrite H3, H2; now rewrite length_map).
    rewrite Hw, (effective_weights_length scores _ _ L).
    pose proof (select_length news_raw 0). rewrite <- H1 in H.
    rewrite H2, length_map. lia.
  - intros ND. pose proof (@occurrences_NoDup x news_raw ND). lia.
Qed.

(** C10.  With [positive] and [negative] in [0,1] the impact weight lies in
    (0,3]; the recency weight of a kept record lies in (0,1]; so every
    weight a run hands to [compute_index] lies in (0,3], provided the
    classifier returned confidences in [0,1]. *)
Theorem effective_weight_range :
  (forall score text,
      0 <= positive score <= 1 -> 0 <= negative score <= 1 ->
      0 < _impact_weight score text <= 3)%R /\
  (forall news_raw scores weights,
      In (scores, weights) (index_calls (fst (run_of news_raw))) ->
      Forall (fun s => 0 <= positive s <= 1 /\ 0 <= negative s <= 1)%R scores ->
      Forall (fun w => 0 < w <= 3)%R weights).
Proof.
  split.
  - intros score text. apply impact_weight_unit_range.
  - intros news_raw scores weights Hin Hs.
    destruct (index_calls_of_run _ _ _ Hin)
      as [items [ws [texts [Ec [-> _]]]]].
    destruct (collect_select _ _ Ec) as [_ [_ [_ [Hw _]]]].
    now apply effective_weights_range.
Qed.

End RunFacts.

(** *** Worked runs *)

Import Fixtures.

(** A snapshot holding only a stale record sends nothing to the classifier. *)
Lemma classifier_called_once_on_kept_texts_witness :
  batch_calls
    (fst (analyze_documents fromisoformat_ref (answers 1) index clock t_end
                            [article_stale])) = [].
Proof.
  apply (proj1 (proj2 (@classifier_called_once_on_kept_texts
                         fromisoformat_ref (answers 1) index clock t_end
                         [article_stale]))).
  reflexivity.
Defined.

(** C7, as stated, fails.  Two records are kept and the classifier returns
    a single score: the run does not fail, and the index is computed from
    the first record alone.  With one record kept and two scores returned,
    [compute_index] receives two scores and one weight. *)
Lemma miscounted_scores_counterexample :
  (let run := analyze_documents fromisoformat_ref (answers 1) index clock t_end
                                [article_a; article_b] in
   batch_calls (fst run) = [[text_a; text_b]] /\
   answers 1 [text_a; text_b] = Ok [bullish] /\
   index_calls (fst run)
   = [([bullish], [(Q2R (1 # 1) * _impact_weight bullish text_a)%R])] /\
   exists r, snd run = Ok r /\ res_count r = 1%nat) /\
  (let run := analyze_documents fromisoformat_ref (answers 2) index clock t_end
                                [article_a] in
   exists scores weights,
     index_calls (fst run) = [(scores, weights)] /\
     List.length scores = 2%nat /\ List.length weights = 1%nat).
Proof.
  split.
  - repeat split. eexists. split; reflexivity.
  - do 2 eexists. repeat split.
Qed.

(** With a classifier that answers one score per text, both lists handed to
    [compute_index] have the length of the batch. *)
Lemma classifier_failure_fails_run_witness :
  exists weights,
    index_calls
      (fst (analyze_documents fromisoformat_ref (answers 2) index clock t_end
                              [article_a; article_b]))
    = [(repeat bullish 2, weights)] /\
    List.length weights = 2%nat.
Proof.
  destruct (proj2 (@classifier_failure_fails_run
                     fromisoformat_ref (answers 2) index clock t_end
                     [article_a; article_b] [article_a; article_b]
                     [1 # 1; 1 # 1]%Q
                     [text_a; text_b]
                     eq_refl ltac:(discriminate))
                  (repeat bullish 2) eq_refl)
    as [weights [H1 [H2 _]]].
  exists weights. split; [exact H1 | exact H2].
Defined.

(** C8, as stated, fails.  A snapshot that holds the same record twice
    yields two documents with one id, each with a weight of its own. *)
Lemma duplicate_record_counterexample :
  let run := analyze_documents fromisoformat_ref (answers 2) index clock t_end
                               [article_a; article_a] in
  exists r scores weights,
    snd run = Ok r /\
    index_calls (fst run) = [(scores, weights)] /\
    map id (res_documents r)
    = ["https://example.org/a"; "https://example.org/a"] /\
    contributions "https://example.org/a" (res_documents r) weights = 2%nat.
Proof. do 3 eexists. repeat split. Qed.

(** In a snapshot of two records with distinct ids, the id of the first is
    weighted at most once. *)
Lemma each_record_weighted_at_most_once_witness :
  let run := analyze_documents fromisoformat_ref (answers 2) index clock t_end
                               [article_a; article_b] in
  exists r scores weights,
    snd run = Ok r /\
    index_calls (fst run) = [(scores, weights)] /\
    (contributions "https://example.org/a" (res_documents r) weights <= 1)%nat.
Proof.
  do 3 eexists. split; [reflexivity|]. split; [reflexivity|].
  refine (proj2 (proj2 (@each_record_weighted_at_most_once
            fromisoformat_ref (answers 2) index clock t_end
            [article_a; article_b] _ _ _ _ "https://example.org/a"
            eq_refl (or_introl eq_refl))) _).
  repeat constructor; simpl; intuition discriminate.
Defined.

(** The impact weight of a confident headline lies in (0,3]. *)
Lemma effective_weight_range_witness :
  (0 < _impact_weight bullish text_b <= 3)%R.
Proof.
  apply (proj1 (@effective_weight_range
                  fromisoformat_ref (answers 2) index clock t_end));
    unfold bullish; simpl; lra.
Defined.

(** ** The aggregator *)

Section IndexFacts.

#[local] Open Scope R_scope.

Import IndexCalc.

Lemma fold_left_zeros (weights : list R) (acc : R) :
  Forall (fun w => w = 0) weights -> fold_left Rplus weights acc = acc.
Proof.
  revert acc. induction weights as [|w ws IH]; intros acc H; simpl.
  - reflexivity.
  - inversion H; subst. rewrite IH by assumption. lra.
Qed.

Lemma compute_index_small_total (tol : R) (scores : list SentimentScores)
  (weights : list R) :
  Rabs (total_weight weights) <= tol ->
  compute_index tol scores weights = neutral_index.
Proof.
  intros H. unfold compute_index. destruct scores; [reflexivity|].
  destruct (Rle_dec _ _); [reflexivity | contradiction].
Qed.

Lemma clamp_range (x : R) : 0 <= clamp x <= 100.
Proof.
  unfold clamp. split; [apply Rmax_l|].
  apply Rmax_lub; [lra | apply Rmin_l].
Qed.

(** The index lies in [0,100] on every input, and [gsi] repeats it. *)
Lemma compute_index_range (tol : R) (scores : list SentimentScores)
  (weights : list R) :
  let c := compute_index tol scores weights in
  0 <= nw_norm c <= 100 /\ gsi c = nw_norm c.
Proof.
  unfold compute_index. destruct scores; simpl; [split; [lra|reflexivity]|].
  destruct (Rle_dec _ _); simpl; [split; [lra|reflexivity]|].
  split; [apply clamp_range | reflexivity].
Qed.

(** C2.  On the empty input, and whenever the weights total at most the
    tolerance in absolute value (all weights zero included),
    [compute_index] returns the neutral index through its own branch,
    before any division; a run whose first loop keeps no record gets this
    index without calling the classifier. *)
Theorem compute_index_neutral_default (tol : R) :
  0 <= tol ->
  compute_index tol [] []
  = {| nw := 0; nw_norm := 50; gsi := 50; classification := "Neutral" |} /\
  (forall weights, compute_index tol [] weights = neutral_index) /\
  (forall scores weights,
      Rabs (total_weight weights) <= tol ->
      compute_index tol scores weights = neutral_index) /\
  (forall scores weights,
      Forall (fun w => w = 0) weights ->
      compute_index tol scores weights = neutral_index) /\
  (forall fromisoformat analyze_batch now_at now_end news_raw items ws,
      collect fromisoformat now_at 0 news_raw = Ok (items, ws, []) ->
      analyze_documents fromisoformat analyze_batch
        (fun scores weights => Ok (compute_index tol scores weights))
        now_at now_end news_raw
      = ([ComputeIndex [] []], Ok (build_result now_end [] neutral_index))).
Proof.
  intros Htol. split; [reflexivity|]. split; [reflexivity|]. split; [|split].
  - intros scores weights. apply compute_index_small_total.
  - intros scores weights H. apply compute_index_small_total.
    unfold total_weight. rewrite (fold_left_zeros 0 H), Rabs_R0. exact Htol.
  - intros fromisoformat analyze_batch now_at now_end news_raw items ws Ec.
    now rewrite (@run_no_texts fromisoformat analyze_batch _ now_at now_end
                               news_raw items ws Ec).
Qed.

End IndexFacts.

(** With an exact zero test, two weights of zero give the neutral index. *)
Lemma compute_index_neutral_default_witness :
  IndexCalc.compute_index 0 [bullish; bullish] [0%R; 0%R]
  = IndexCalc.neutral_index.
Proof.
  apply (proj1 (proj2 (proj2 (proj2 (@compute_index_neutral_default 0%R
                                        (Rle_refl 0%R)))))).
  repeat constructor.
Defined.

(** ** The gauge *)

Section GaugeFacts.

#[local] Open Scope R_scope.

(** Decides every comparison in the goal and closes the cases by linear
    arithmetic or by comparing the labels. *)
Ltac band_cases :=
  repeat match goal with
         | |- context [Rlt_dec ?a ?b] => destruct (Rlt_dec a b)
         | |- context [Rle_dec ?a ?b] => destruct (Rle_dec a b)
         end;
  try reflexivity; try discriminate; try lra.

(** C1.  On [0,100] [classifyGsi] returns one of five labels, each on
    exactly one band: below 25, from 25 to below 45, from 45 to below 55,
    from 55 to below 75, and from 75 up to 100.  The values 25, 45, 55 and
    75 open their bands, 100 is in the last one and 24.999 in the first. *)
Theorem classifyGsi_bands :
  (forall gsi, 0 <= gsi <= 100 ->
     (Dashboard.classifyGsi gsi = "Extremely Bearish" <-> gsi < 25) /\
     (Dashboard.classifyGsi gsi = "Bearish" <-> 25 <= gsi < 45) /\
     (Dashboard.classifyGsi gsi = "Neutral" <-> 45 <= gsi < 55) /\
     (Dashboard.classifyGsi gsi = "Bullish" <-> 55 <= gsi < 75) /\
     (Dashboard.classifyGsi gsi = "Extremely Bullish" <-> 75 <= gsi) /\
     In (Dashboard.classifyGsi gsi)
        ["Extremely Bearish"; "Bearish"; "Neutral"; "Bullish";
         "Extremely Bullish"]) /\
  Dashboard.classifyGsi 0 = "Extremely Bearish" /\
  Dashboard.classifyGsi 24.999 = "Extremely Bearish" /\
  Dashboard.classifyGsi 25 = "Bearish" /\
  Dashboard.classifyGsi 45 = "Neutral" /\
  Dashboard.classifyGsi 55 = "Bullish" /\
  Dashboard.classifyGsi 75 = "Extremely Bullish" /\
  Dashboard.classifyGsi 100 = "Extremely Bullish".
Proof.
  split.
  - intros gsi H. unfold Dashboard.classifyGsi.
    band_cases; repeat split; intros; simpl;
      try reflexivity; try discriminate; try lra; tauto.
  - unfold Dashboard.classifyGsi. repeat split; band_cases.
Qed.

(** The fallback of the page and the classifier of the contract are the
    same function. *)
Lemma classifyGsi_is_classify (x : R) :
  Dashboard.classifyGsi x = IndexCalc.classify x.
Proof. reflexivity. Qed.

(** The legend and the painted arcs have the bounds of the contract. *)
Lemma legend_bounds_agree :
  map (fun e => (snd (fst e), snd e)) Dashboard.legend
  = map (fun e => (snd (fst e), snd e)) IndexCalc.bands /\
  map fst Dashboard.drawn_bands
  = map (fun e => (snd (fst e), snd e)) IndexCalc.bands.
Proof. split; reflexivity. Qed.

(** Read as a table, the contract is the classifier. *)
Lemma bands_table_is_classify (x : R) :
  0 <= x <= 100 -> label_at IndexCalc.bands x = Some (IndexCalc.classify x).
Proof.
  intros H. unfold label_at, IndexCalc.bands, IndexCalc.classify.
  band_cases.
Qed.

(** C6, where the page departs from it.  Bounds agree everywhere, and the
    fallback [classifyGsi] is the classifier of the contract; the legend,
    however, names the two outer bands "Extreme Bearish" and "Extreme
    Bullish", where [classifyGsi] and the contract say "Extremely Bearish"
    and "Extremely Bullish": at 10 and at 90 the page shows two different
    names for one band. *)
Theorem legend_labels_differ :
  label_at Dashboard.legend 10 = Some "Extreme Bearish" /\
  Dashboard.classifyGsi 10 = "Extremely Bearish" /\
  label_at IndexCalc.bands 10 = Some "Extremely Bearish" /\
  label_at Dashboard.legend 90 = Some "Extreme Bullish" /\
  Dashboard.classifyGsi 90 = "Extremely Bullish" /\
  label_at IndexCalc.bands 90 = Some "Extremely Bullish" /\
  map fst (map fst Dashboard.legend) <> map fst (map fst IndexCalc.bands).
Proof.
  unfold label_at, Dashboard.legend, IndexCalc.bands, Dashboard.classifyGsi.
  repeat split; band_cases.
Qed.

End GaugeFacts.

(** The value 30 lies in the band of "Bearish". *)
Lemma classifyGsi_bands_witness :
  Dashboard.classifyGsi 30 = "Bearish".
Proof.
  apply (proj1 (proj2 (proj1 classifyGsi_bands 30%R ltac:(lra)))). lra.
Defined.

(* ================================================================== *)
(** * Further properties of the code *)

(** ** [_extract_news_text] *)

Section ExtractFacts.

Lemma append_assoc' (a b c : string) : (a ++ b) ++ c = a ++ (b ++ c).
Proof. induction a as [|x a IH]; simpl; [reflexivity | now rewrite IH]. Qed.

Lemma concat_cons2 (sep x y : string) (l : list string) :
  String.concat sep (x :: y :: l) = x ++ sep ++ String.concat sep (y :: l).
Proof. reflexivity. Qed.

(** Every piece that is joined occurs in the joined text. *)
Lemma concat_substring (sep : string) (parts : list string) (p : string) :
  In p parts -> substring_of p (String.concat sep parts).
Proof.
  induction parts as [|x [|y l] IH]; intros Hin.
  - contradiction.
  - destruct Hin as [->|[]]. exists "", "". simpl.
    induction p as [|c p IHp]; simpl; [reflexivity | now rewrite <- IHp].
  - rewrite concat_cons2. destruct Hin as [->|Hin].
    + now exists "", (sep ++ String.concat sep (y :: l)).
    + destruct (IH Hin) as [pre [post E]].
      exists (x ++ sep ++ pre), post. rewrite E.
      now rewrite !append_assoc'.
Qed.

Lemma concat_empty_iff (sep : string) (parts : list string) :
  Forall (fun p => p <> "") parts ->
  (String.concat sep parts = "" <-> parts = []).
Proof.
  intros H. split; [|now intros ->].
  destruct parts as [|x [|y l]]; [reflexivity| |].
  - simpl. inversion H; subst. contradiction.
  - rewrite concat_cons2. inversion H as [|? ? Hx _]; subst.
    destruct x; [contradiction | discriminate].
Qed.

Lemma filter_truthy_nonempty (parts : list string) :
  Forall (fun p => p <> "") (filter truthy parts).
Proof.
  apply Forall_forall. intros p Hin. apply filter_In in Hin.
  now apply truthy_nonempty.
Qed.

(** X1.  The text of a record is empty exactly when none of [title],
    [description] and [content] holds a non-empty string; a missing key and
    [null] count as empty. *)
Theorem extract_news_text_empty_iff (a : article) :
  _extract_news_text a = "" <->
  get_or_empty (title a) = "" /\ get_or_empty (description a) = "" /\
  get_or_empty (content a) = "".
Proof.
  unfold _extract_news_text, join.
  rewrite (concat_empty_iff _ (filter_truthy_nonempty _)).
  destruct (get_or_empty (title a)), (get_or_empty (description a)),
    (get_or_empty (content a)); simpl; split;
    try discriminate; try (intros [? [? ?]]; discriminate);
    try reflexivity; repeat split.
Qed.

(** X2.  Every non-empty field of a record occurs unchanged inside its
    text, and a record with a single non-empty field has exactly that field
    as its text: no separator is added at either end. *)
Theorem extract_news_text_keeps_fields (a : article) :
  (forall f, In f [title a; description a; content a] ->
             get_or_empty f <> "" ->
             substring_of (get_or_empty f) (_extract_news_text a)) /\
  (get_or_empty (description a) = "" -> get_or_empty (content a) = "" ->
   _extract_news_text a = get_or_empty (title a)) /\
  (get_or_empty (title a) = "" -> get_or_empty (content a) = "" ->
   _extract_news_text a = get_or_empty (description a)) /\
  (get_or_empty (title a) = "" -> get_or_empty (description a) = "" ->
   _extract_news_text a = get_or_empty (content a)).
Proof.
  split; [|repeat split].
  - intros f Hin Hne. unfold _extract_news_text, join.
    apply concat_substring. apply filter_In. split.
    + apply (in_map get_or_empty) in Hin. exact Hin.
    + now apply truthy_nonempty.
  - intros Hd Hc. unfold _extract_news_text, join. rewrite Hd, Hc.
    now destruct (get_or_empty (title a)).
  - intros Ht Hc. unfold _extract_news_text, join. rewrite Ht, Hc.
    now destruct (get_or_empty (description a)).
  - intros Ht Hd. unfold _extract_news_text, join. rewrite Ht, Hd.
    now destruct (get_or_empty (content a)).
Qed.

End ExtractFacts.

(** A record with only a description. *)
Lemma extract_news_text_keeps_fields_witness :
  _extract_news_text
    {| title := Null; description := Str "Gold steady"; content := Absent;
       timestamp := Absent; url := Absent |} = "Gold steady".
Proof.
  apply (proj1 (proj2 (proj2 (extract_news_text_keeps_fields
    {| title := Null; description := Str "Gold steady"; content := Absent;
       timestamp := Absent; url := Absent |}))));
    reflexivity.
Defined.

(** A record without any text. *)
Lemma extract_news_text_empty_iff_witness :
  _extract_news_text
    {| title := Null; description := Str ""; content := Absent;
       timestamp := Str "2024-01-01T00:00:00Z"; url := Absent |} = "".
Proof.
  apply (proj2 (extract_news_text_empty_iff
    {| title := Null; description := Str ""; content := Absent;
       timestamp := Str "2024-01-01T00:00:00Z"; url := Absent |})).
  repeat split.
Defined.

(** ** More on [_recency_weight] *)

Section RecencyMore.

Variable fromisoformat : string -> option datetime.

#[local] Abbreviation rwt := (_recency_weight fromisoformat).

Lemma age_days_of_le (delta d : Z) :
  (0 <= d)%Z ->
  (age_days_of delta <= d # 1)%Q <-> (delta <= d * 86400000000)%Z.
Proof.
  intros Hd. unfold age_days_of. rewrite Q.max_lub_iff. split.
  - intros [_ H]. unfold Qdiv, Qle in H; simpl in H. lia.
  - intros H. split; unfold Qdiv, Qle; simpl; lia.
Qed.

Lemma age_days_of_mono (d1 d2 : Z) :
  (d1 <= d2)%Z -> (age_days_of d1 <= age_days_of d2)%Q.
Proof.
  intros H. unfold age_days_of. apply Q.max_le_compat_l.
  unfold Qdiv, Qle; simpl. lia.
Qed.

Lemma step_weight_pos_iff (a : Q) : (0 < step_weight a)%Q <-> (a <= 30)%Q.
Proof.
  destruct (step_weight_table a)
    as [[Ha ->]|[[Ha ->]|[[Ha ->]|[[Ha ->]|[[Ha ->]|[Ha ->]]]]]];
    split; intros; lra.
Qed.

(** X3.  For a timestamp that carries a UTC offset the function returns a
    weight, one of 1.0, 0.8, 0.6, 0.3, 0.1 and 0.0.  The weight is 1.0 up to
    one day of age, timestamps in the future included, and it is positive
    exactly when the timestamp is at most thirty days old. *)
Theorem recency_weight_on_offset_timestamp
  (now : Z) (s : string) (ts : datetime) (off : Z) :
  s <> "" ->
  fromisoformat (replace "Z" "+00:00" s) = Some ts ->
  utcoffset_us ts = Some off ->
  let elapsed := (now - (wall_us ts - off))%Z in
  exists w,
    rwt now (Some s) = Ok w /\
    In w [1 # 1; 8 # 10; 6 # 10; 3 # 10; 1 # 10; 0]%Q /\
    ((elapsed <= 86400000000)%Z -> w = 1 # 1) /\
    ((0 < w)%Q <-> (elapsed <= 30 * 86400000000)%Z).
Proof.
  intros Hs Hp Ho elapsed.
  exists (step_weight (age_days_of elapsed)).
  assert (E : (now - 0 - (wall_us ts - off) = elapsed)%Z) by (unfold elapsed; lia).
  split; [|split; [|split]].
  - rewrite (@recency_weight_aware fromisoformat now s ts off Hs Hp Ho). now rewrite E.
  - destruct (step_weight_table (age_days_of elapsed))
      as [[_ ->]|[[_ ->]|[[_ ->]|[[_ ->]|[[_ ->]|[_ ->]]]]]];
      simpl; tauto.
  - intros H. apply step_weight_fresh.
    now apply (age_days_of_le elapsed (d := 1)).
  - rewrite step_weight_pos_iff.
    now apply (age_days_of_le elapsed (d := 30)).
Qed.

(** X4.  The weight depends on the elapsed time only, and never grows
    with it: of two readings of timestamps with offsets, the one with more
    time elapsed gets at most the weight of the other.  In particular the
    weight of one timestamp does not increase as the clock advances, and
    two spellings of one instant in different offsets weigh the same. *)
Theorem recency_weight_antitone_in_elapsed
  (now1 now2 : Z) (s1 s2 : string) (ts1 ts2 : datetime) (off1 off2 : Z) :
  s1 <> "" -> s2 <> "" ->
  fromisoformat (replace "Z" "+00:00" s1) = Some ts1 ->
  fromisoformat (replace "Z" "+00:00" s2) = Some ts2 ->
  utcoffset_us ts1 = Some off1 ->
  utcoffset_us ts2 = Some off2 ->
  (now1 - (wall_us ts1 - off1) <= now2 - (wall_us ts2 - off2))%Z ->
  exists w1 w2,
    rwt now1 (Some s1) = Ok w1 /\ rwt now2 (Some s2) = Ok w2 /\
    (w2 <= w1)%Q.
Proof.
  intros H1 H2 P1 P2 O1 O2 Hle.
  rewrite (@recency_weight_aware fromisoformat now1 s1 ts1 off1 H1 P1 O1).
  rewrite (@recency_weight_aware fromisoformat now2 s2 ts2 off2 H2 P2 O2).
  do 2 eexists. split; [reflexivity|]. split; [reflexivity|].
  apply step_weight_antitone, age_days_of_mono. lia.
Qed.

Lemma replace_app (old : ascii) (new a b : string) :
  replace old new (a ++ b) = replace old new a ++ replace old new b.
Proof.
  induction a as [|c a IH]; simpl; [reflexivity|].
  destruct (Ascii.eqb c old); rewrite IH; [|reflexivity].
  now rewrite append_assoc'.
Qed.

Lemma truthy_app_r (a b : string) : truthy b = true -> truthy (a ++ b) = true.
Proof. destruct a; simpl; auto. Qed.

(** X5.  A trailing [Z] is read as the offset [+00:00]: the two spellings
    of a timestamp get the same result, whatever precedes the suffix. *)
Theorem recency_weight_zulu_suffix (now : Z) (s : string) :
  _recency_weight fromisoformat now (Some (s ++ "Z"))
  = _recency_weight fromisoformat now (Some (s ++ "+00:00")).
Proof.
  unfold _recency_weight.
  rewrite !truthy_app_r by reflexivity. simpl negb. cbv iota.
  now rewrite !replace_app.
Qed.

End RecencyMore.

(** The timestamp 2024-01-01T00:00:00Z read twelve hours later. *)
Lemma recency_weight_on_offset_timestamp_witness :
  exists w,
    _recency_weight fromisoformat_ref (1704067200000000 + 43200000000)
                    (Some "2024-01-01T00:00:00Z") = Ok w /\
    w = 1 # 1.
Proof.
  destruct (@recency_weight_on_offset_timestamp fromisoformat_ref
              (1704067200000000 + 43200000000) "2024-01-01T00:00:00Z"
              {| wall_us := 1704067200000000; utcoffset_us := Some 0%Z |} 0
              ltac:(discriminate) eq_refl eq_refl)
    as [w [E [_ [F _]]]].
  exists w. split; [exact E | apply F; vm_compute; discriminate].
Defined.

(** One instant spelled in UTC and in the offset +02:00, read at the same
    moment. *)
Lemma recency_weight_antitone_in_elapsed_witness :
  exists w1 w2,
    _recency_weight fromisoformat_ref (1704067200000000 + 5 * 86400000000)
                    (Some "2024-01-01T00:00:00Z") = Ok w1 /\
    _recency_weight fromisoformat_ref (1704067200000000 + 5 * 86400000000)
                    (Some "2024-01-01T02:00:00+02:00") = Ok w2 /\
    (w2 <= w1)%Q.
Proof.
  apply (@recency_weight_antitone_in_elapsed fromisoformat_ref
           (1704067200000000 + 5 * 86400000000)
           (1704067200000000 + 5 * 86400000000)
           "2024-01-01T00:00:00Z" "2024-01-01T02:00:00+02:00"
           {| wall_us := 1704067200000000; utcoffset_us := Some 0%Z |}
           {| wall_us := 1704074400000000;
              utcoffset_us := Some 7200000000%Z |}
           0 7200000000);
    try discriminate; try reflexivity.
Defined.

(** ** More on [_impact_weight] *)

Section ImpactMore.

#[local] Open Scope R_scope.

Lemma lower_ascii_idem (c : ascii) : lower_ascii (lower_ascii c) = lower_ascii c.
Proof. destruct c as [[] [] [] [] [] [] [] []]; reflexivity. Qed.

Lemma lower_idem (s : string) : lower (lower s) = lower s.
Proof.
  induction s as [|c s IH]; simpl; [reflexivity|].
  now rewrite lower_ascii_idem, IH.
Qed.

Lemma impact_weight_unfold (score : SentimentScores) (text : string) :
  _impact_weight score text
  = Rpower (Rmax (Rabs (positive score - negative score)) 1e-3) 1.5
    * impact_boost_of (lower text).
Proof. reflexivity. Qed.

Lemma Rpower_three_halves_le (b : R) : 0 < b <= 1 -> Rpower b 1.5 <= b.
Proof.
  intros [Hb Hb1].
  replace 1.5 with (1 + 0.5) by lra.
  rewrite Rpower_plus, Rpower_1 by assumption.
  assert (P : Rpower b 0.5 <= 1) by (apply Rpower_le_one; [split; assumption | lra]).
  pose proof (Rpower_pos b 0.5). nra.
Qed.

(** X6.  For one text, the impact weight does not decrease when the gap
    between [positive] and [negative] widens. *)
Theorem impact_weight_monotone_in_margin
  (s1 s2 : SentimentScores) (text : string) :
  Rabs (positive s1 - negative s1) <= Rabs (positive s2 - negative s2) ->
  _impact_weight s1 text <= _impact_weight s2 text.
Proof.
  intros H. rewrite !impact_weight_unfold.
  pose proof (impact_boost_range (lower text)) as B.
  apply Rmult_le_compat_r; [lra|].
  apply Rle_Rpower_l; [lra|]. split.
  - pose proof (base_floor (Rabs (positive s1 - negative s1))). lra.
  - apply Rmax_lub.
    + eapply Rle_trans; [exact H | apply Rmax_l].
    + apply Rmax_r.
Qed.

(** X7.  The impact weight looks at the size of the gap only: swapping
    [positive] and [negative] leaves it unchanged, and [neutral] plays no
    part. *)
Theorem impact_weight_symmetric (p n u u' : R) (text : string) :
  _impact_weight {| positive := p; negative := n; neutral := u |} text
  = _impact_weight {| positive := n; negative := p; neutral := u' |} text.
Proof.
  rewrite !impact_weight_unfold. simpl. now rewrite (Rabs_minus_sym p n).
Qed.

(** X8.  The keyword test ignores letter case.  Two texts that differ in
    case only weigh the same, and a text holding a keyword in any mix of
    upper and lower case gets the threefold boost. *)
Theorem impact_weight_ignores_case (score : SentimentScores) :
  (forall t1 t2, lower t1 = lower t2 ->
                 _impact_weight score t1 = _impact_weight score t2) /\
  (forall t, _impact_weight score (lower t) = _impact_weight score t) /\
  (forall k pre mid post,
      In k HIGH_IMPACT_KEYWORDS -> lower mid = k ->
      _impact_weight score (pre ++ mid ++ post)
      = Rpower (Rmax (Rabs (positive score - negative score)) 0.001) 1.5 * 3).
Proof.
  split; [|split].
  - intros t1 t2 H. rewrite !impact_weight_unfold. now rewrite H.
  - intros t. rewrite !impact_weight_unfold. now rewrite lower_idem.
  - intros k pre mid post Hin Hk. rewrite impact_weight_unfold.
    assert (Hit : keyword_hit (pre ++ mid ++ post)).
    { exists k. split; [assumption|].
      exists (lower pre), (lower post). now rewrite !lower_app, Hk. }
    rewrite (impact_boost_hit Hit).
    replace (1e-3) with 0.001 by lra. f_equal. lra.
Qed.

(** X9.  The impact weight never falls below [0.001 ** 1.5], and reaches
    this floor when the gap is at most 0.001 and no keyword occurs.  When
    the gap is at most 1 the exponent only shrinks: the weight is at most
    the floored gap times the boost. *)
Theorem impact_weight_bounds (score : SentimentScores) (text : string) :
  let margin := Rabs (positive score - negative score) in
  Rpower 0.001 1.5 <= _impact_weight score text /\
  (margin <= 0.001 -> ~ keyword_hit text ->
   _impact_weight score text = Rpower 0.001 1.5) /\
  (margin <= 1 ->
   _impact_weight score text
   <= Rmax margin 0.001 * impact_boost_of (lower text)).
Proof.
  intros margin. rewrite impact_weight_unfold. fold margin.
  replace (1e-3) with 0.001 by lra.
  pose proof (impact_boost_range (lower text)) as B.
  pose proof (Rmax_r margin 0.001) as F.
  split; [|split].
  - assert (P : Rpower 0.001 1.5 <= Rpower (Rmax margin 0.001) 1.5).
    { apply Rle_Rpower_l; [lra|]. split; [lra | assumption]. }
    pose proof (Rpower_pos 0.001 1.5). nra.
  - intros Hm Hk. rewrite (impact_boost_miss Hk).
    rewrite Rmax_right by assumption. lra.
  - intros Hm. apply Rmult_le_compat_r; [lra|].
    apply Rpower_three_halves_le. split; [lra|].
    apply Rmax_lub; lra.
Qed.

End ImpactMore.

(** A wide gap outweighs a narrow one on the same headline. *)
Lemma impact_weight_monotone_in_margin_witness :
  (_impact_weight (mkScores 0.5 0.4 0.1) text_a
   <= _impact_weight (mkScores 0.9 0.05 0.05) text_a)%R.
Proof.
  apply impact_weight_monotone_in_margin. simpl.
  rewrite !Rabs_pos_eq; lra.
Defined.

(** The surname of the chairman in capitals. *)
Lemma impact_weight_ignores_case_witness :
  _impact_weight bullish "POWELL speaks"
  = (Rpower (Rmax (Rabs (positive bullish - negative bullish)) 0.001) 1.5 * 3)%R.
Proof.
  apply (proj2 (proj2 (impact_weight_ignores_case bullish))
           "powell" "" "POWELL" " speaks").
  - simpl. tauto.
  - reflexivity.
Defined.

(** Equal confidences on a headline without keyword. *)
Lemma impact_weight_bounds_witness :
  _impact_weight (mkScores 0.4 0.4 0.2) text_a = Rpower 0.001 1.5.
Proof.
  apply (proj1 (proj2 (impact_weight_bounds (mkScores 0.4 0.4 0.2) text_a))).
  - simpl. rewrite Rminus_diag, Rabs_R0. lra.
  - intros Hit. apply keyword_hit_iff in Hit. vm_compute in Hit. discriminate.
Defined.

(** ** What [strip] removes *)

Section StripFacts.

(** The white space [strip] knows, by character code. *)
Lemma is_space_codes (c : ascii) :
  is_space c = true <->
  In (nat_of_ascii c) [9; 10; 11; 12; 13; 28; 29; 30; 31; 32]%nat.
Proof.
  unfold is_space. simpl In.
  rewrite orb_true_iff, !andb_true_iff, !Nat.leb_le. lia.
Qed.

Lemma rstrip_empty_iff (t : string) :
  rstrip t = "" <-> forallb is_space (list_ascii_of_string t) = true.
Proof.
  induction t as [|c r IH]; simpl; [tauto|].
  destruct (rstrip r) as [|d r'] eqn:E.
  - destruct (is_space c); simpl.
    + now rewrite <- IH.
    + split; discriminate.
  - split; [discriminate|]. intros H. apply andb_true_iff in H.
    destruct H as [_ H]. apply IH in H. discriminate.
Qed.

Lemma lstrip_all_space (s : string) :
  forallb is_space (list_ascii_of_string (lstrip s))
  = forallb is_space (list_ascii_of_string s).
Proof.
  induction s as [|c r IH]; simpl; [reflexivity|].
  destruct (is_space c) eqn:E; simpl; [exact IH | now rewrite E].
Qed.

Lemma forallb_false_exists (A : Type) (f : A -> bool) (l : list A) :
  forallb f l = false <-> exists x, In x l /\ f x = false.
Proof.
  induction l as [|a l IH]; simpl.
  - split; [discriminate | intros [x [[] _]]].
  - rewrite andb_false_iff, IH. split.
    + intros [H|[x [H1 H2]]]; [exists a | exists x]; auto.
    + intros [x [[->|H1] H2]]; [now left | right; now exists x].
Qed.

(** [strip] leaves something exactly when the text has a character that is
    not white space. *)
Lemma strip_nonempty_iff (s : string) :
  strip s <> "" <->
  exists c, In c (list_ascii_of_string s) /\
            ~ In (nat_of_ascii c) [9; 10; 11; 12; 13; 28; 29; 30; 31; 32]%nat.
Proof.
  unfold strip. rewrite rstrip_empty_iff, lstrip_all_space.
  rewrite not_true_iff_false, forallb_false_exists.
  split; intros [c [H1 H2]]; exists c; split; trivial.
  - rewrite <- is_space_codes. congruence.
  - destruct (is_space c) eqn:E; [|reflexivity].
    apply is_space_codes in E. contradiction.
Qed.

(** What [strip] returns sits in the text between two runs of white space. *)
Lemma strip_between_spaces (s : string) :
  exists pre post,
    s = (pre ++ strip s ++ post)%string /\
    forallb is_space (list_ascii_of_string pre) = true /\
    forallb is_space (list_ascii_of_string post) = true.
Proof.
  assert (L : forall s, exists pre, s = (pre ++ lstrip s)%string /\
                forallb is_space (list_ascii_of_string pre) = true).
  { clear s. induction s as [|c r [pre [E F]]]; simpl.
    - now exists "".
    - destruct (is_space c) eqn:Ec.
      + exists (String c pre). simpl. rewrite Ec, F, <- E. now split.
      + now exists "". }
  assert (Rr : forall t, exists post, t = (rstrip t ++ post)%string /\
                forallb is_space (list_ascii_of_string post) = true).
  { clear s L. induction t as [|c r [post [E F]]]; simpl.
    - now exists "".
    - destruct (rstrip r) as [|d r'] eqn:Er; simpl in E.
      + rewrite <- E in F. destruct (is_space c) eqn:Ec.
        * exists (String c r). simpl. rewrite Ec, F. now split.
        * exists r. now split.
      + exists post. split; [simpl; f_equal; exact E | exact F]. }
  destruct (L s) as [pre [E1 F1]].
  destruct (Rr (lstrip s)) as [post [E2 F2]].
  exists pre, post. unfold strip. rewrite <- E2. now repeat split.
Qed.

End StripFacts.

(** ** More on [analyze_documents] *)

Section RunMore.

Variable fromisoformat : string -> option datetime.
Variable analyze_batch : list string -> outcome (list SentimentScores).
Variable compute_index :
  list SentimentScores -> list R -> outcome IndexComponents.
Variable now_at : nat -> Z.
Variable now_end : Z.

#[local] Abbreviation rw2 := (_recency_weight fromisoformat).
#[local] Abbreviation collect2 := (collect fromisoformat now_at).
#[local] Abbreviation kept2 := (kept fromisoformat now_at).
#[local] Abbreviation select2 := (select fromisoformat now_at).
#[local] Abbreviation run2 :=
  (analyze_documents fromisoformat analyze_batch compute_index now_at now_end).

(** The four ways a run can go. *)
Lemma run_cases (news_raw : list article) :
  (exists e, collect2 0 news_raw = Raise e /\ run2 news_raw = ([], Raise e)) \/
  (exists items ws,
      collect2 0 news_raw = Ok (items, ws, []) /\
      run2 news_raw
      = ([ComputeIndex [] []],
         match compute_index [] [] with
         | Ok c => Ok (build_result now_end [] c)
         | Raise e => Raise e
         end)) \/
  (exists items ws texts e,
      collect2 0 news_raw = Ok (items, ws, texts) /\ texts <> [] /\
      analyze_batch texts = Raise e /\
      run2 news_raw = ([AnalyzeBatch texts], Raise e)) \/
  (exists items ws texts scores,
      collect2 0 news_raw = Ok (items, ws, texts) /\ texts <> [] /\
      analyze_batch texts = Ok scores /\
      run2 news_raw
      = ([AnalyzeBatch texts;
          ComputeIndex scores (effective_weights_of scores ws texts)],
         match compute_index scores (effective_weights_of scores ws texts) with
         | Ok c => Ok (build_result now_end (news_docs_of items scores) c)
         | Raise e => Raise e
         end)).
Proof.
  destruct (collect2 0 news_raw) as [[[items ws] texts]|e] eqn:Ec.
  - destruct texts as [|t ts].
    + right; left. exists items, ws. split; [reflexivity|].
      exact (@run_no_texts fromisoformat analyze_batch compute_index now_at
               now_end news_raw items ws Ec).
    + assert (Hn : t :: ts <> []) by discriminate.
      destruct (analyze_batch (t :: ts)) as [scores|e] eqn:Eb.
      * right; right; right. exists items, ws, (t :: ts), scores.
        repeat split; try assumption.
        exact (@run_classifier_returns fromisoformat analyze_batch
                 compute_index now_at now_end news_raw items ws (t :: ts)
                 scores Ec Hn Eb).
      * right; right; left. exists items, ws, (t :: ts), e.
        repeat split; try assumption.
        exact (@run_classifier_raises fromisoformat analyze_batch
                 compute_index now_at now_end news_raw items ws (t :: ts)
                 e Ec Hn Eb).
  - left. exists e. split; [reflexivity|].
    exact (@run_collect_raises fromisoformat analyze_batch compute_index
             now_at now_end news_raw e Ec).
Qed.

Lemma news_docs_of_fields (items : list article) :
  forall scores : list SentimentScores,
    let docs := news_docs_of items scores in
    map id docs = firstn (List.length scores) (map doc_id items) /\
    map text docs
    = firstn (List.length scores) (map _extract_news_text items) /\
    map sentiment docs = firstn (List.length items) scores /\
    List.length docs = Nat.min (List.length scores) (List.length items) /\
    Forall (fun d => source d = "news") docs.
Proof.
  induction items as [|n rest IH]; intros [|s ss]; simpl;
    try (repeat split; constructor).
  destruct (IH ss) as [H1 [H2 [H3 [H4 H5]]]].
  repeat split; try (f_equal; assumption).
  constructor; [reflexivity | assumption].
Qed.

(** X10.  The documents of a result are the kept records of the snapshot in
    their order, paired off with the scores in the order the classifier
    returned them: document [k] carries the url and the text of the [k]-th
    kept record and the [k]-th score, and [count] is the number of
    documents. *)
Theorem result_documents_follow_kept_records
  (news_raw : list article) (tr : list event) (r : result) :
  run2 news_raw = (tr, Ok r) ->
  let kept_records := select2 0 news_raw in
  exists scores,
    (kept_records = [] /\ scores = [] \/
     analyze_batch (map _extract_news_text kept_records) = Ok scores) /\
    map id (res_documents r)
    = firstn (List.length scores) (map doc_id kept_records) /\
    map text (res_documents r)
    = firstn (List.length scores) (map _extract_news_text kept_records) /\
    map sentiment (res_documents r)
    = firstn (List.length kept_records) scores /\
    res_count r = List.length (res_documents r) /\
    res_count r = Nat.min (List.length scores) (List.length kept_records).
Proof.
  intros Hrun kept_records.
  destruct (run_cases news_raw)
    as [[e [_ E]]|[[items [ws [Ec E]]]|[[items [ws [texts [e [_ [_ [_ E]]]]]]]
       |[items [ws [texts [scores [Ec [Hn [Eb E]]]]]]]]]];
    rewrite E in Hrun; try discriminate.
  - destruct (@collect_select fromisoformat now_at news_raw 0 items ws [] Ec)
      as [H1 [H2 _]].
    destruct (compute_index [] []) as [c|e]; [|discriminate].
    injection Hrun as _ Hr. subst r. exists [].
    assert (K : kept_records = []).
    { unfold kept_records. rewrite <- H1. destruct items; [reflexivity|].
      discriminate. }
    rewrite K. simpl. repeat split. now left.
  - destruct (@collect_select fromisoformat now_at news_raw 0 items ws texts
                Ec) as [H1 [H2 _]].
    destruct (compute_index _ _) as [c|e]; [|discriminate].
    injection Hrun as _ Hr. subst r. exists scores.
    unfold kept_records. rewrite <- H1.
    destruct (news_docs_of_fields items scores) as [D1 [D2 [D3 [D4 _]]]].
    simpl. repeat split; try assumption.
    right. now rewrite <- H2.
Qed.

(** X11.  A run that returns has called [compute_index] exactly once, as
    its last call and after the classifier if that was called at all; the
    [nw], [nw_norm], [gsi] and [classification] of the result are the ones
    [compute_index] returned, and its timestamp is the clock reading taken
    at the end. *)
Theorem successful_run_reports_the_index
  (news_raw : list article) (tr : list event) (r : result) :
  run2 news_raw = (tr, Ok r) ->
  exists scores weights c,
    compute_index scores weights = Ok c /\
    (tr = [ComputeIndex scores weights] \/
     exists texts, tr = [AnalyzeBatch texts; ComputeIndex scores weights]) /\
    res_nw r = nw c /\ res_nw_norm r = nw_norm c /\ res_gsi r = gsi c /\
    res_classification r = classification c /\
    res_timestamp r = now_end.
Proof.
  intros Hrun.
  destruct (run_cases news_raw)
    as [[e [_ E]]|[[items [ws [Ec E]]]|[[items [ws [texts [e [_ [_ [_ E]]]]]]]
       |[items [ws [texts [scores [Ec [Hn [Eb E]]]]]]]]]];
    rewrite E in Hrun; try discriminate.
  - destruct (compute_index [] []) as [c|e] eqn:Ei; [|discriminate].
    injection Hrun as Ht Hr. subst r tr.
    exists [], [], c. repeat split; [assumption | now left].
  - destruct (compute_index _ _) as [c|e] eqn:Ei; [|discriminate].
    injection Hrun as Ht Hr. subst r tr.
    exists scores, (effective_weights_of scores ws texts), c.
    repeat split; [assumption | right; now exists texts].
Qed.

Lemma recency_weight_raises_TypeError (now : Z) (v : option string) (e : exn) :
  rw2 now v = Raise e -> e = TypeError.
Proof.
  unfold _recency_weight, Datetime.sub. intros H.
  destruct v as [s|]; [|discriminate].
  destruct (negb (truthy s)); [discriminate|].
  destruct (fromisoformat _) as [ts|]; [|discriminate].
  simpl in H. destruct (utcoffset_us ts); inversion H. reflexivity.
Qed.

Lemma collect_raises_iff (news : list article) :
  forall i,
    (exists e, collect2 i news = Raise e) <->
    (exists k n e, nth_error news k = Some n /\
                   rw2 (now_at (i + k)) (get_default (timestamp n)) = Raise e).
Proof.
  induction news as [|n rest IH]; intros i.
  - split; [intros [e H]; discriminate|].
    intros [k [m [e [H _]]]]. destruct k; discriminate.
  - specialize (IH (S i)). simpl.
    destruct (rw2 (now_at i) (get_default (timestamp n))) as [w|e] eqn:Ew.
    + assert (Step : (exists e, collect2 (S i) rest = Raise e) <->
                     (exists e, (if Qle_bool w 0 then collect2 (S i) rest
                       else if negb (truthy (strip (_extract_news_text n)))
                            then collect2 (S i) rest
                            else match collect2 (S i) rest with
                                 | Ok (news_items, recency_weights, texts) =>
                                     Ok (n :: news_items, w :: recency_weights,
                                         _extract_news_text n :: texts)
                                 | Raise e => Raise e
                                 end) = Raise e)).
      { destruct (Qle_bool w 0); [reflexivity|].
        destruct (negb _); [reflexivity|].
        destruct (collect2 (S i) rest) as [[[a b] c]|e'].
        - split; intros [e H]; discriminate.
        - split; intros _; now exists e'. }
      rewrite <- Step, IH. split.
      * intros [k [m [e [H1 H2]]]]. exists (S k), m, e. split; [exact H1|].
        now replace (i + S k)%nat with (S i + k)%nat by lia.
      * intros [k [m [e [H1 H2]]]]. destruct k as [|k].
        -- simpl in H1. inversion H1; subst m.
           rewrite Nat.add_0_r in H2. congruence.
        -- exists k, m, e. split; [exact H1|].
           now replace (S i + k)%nat with (i + S k)%nat by lia.
    + split; [|intros _; now exists e].
      intros _. exists 0%nat, n, e. split; [reflexivity|].
      now rewrite Nat.add_0_r.
Qed.

Lemma collect_raises_TypeError (news : list article) :
  forall i e, collect2 i news = Raise e -> e = TypeError.
Proof.
  induction news as [|m rest IH]; intros i e Ec; simpl in Ec;
    [discriminate|].
  destruct (rw2 (now_at i) (get_default (timestamp m))) as [w|e0] eqn:Ew.
  - destruct (Qle_bool w 0); [now apply (IH (S i))|].
    destruct (negb _); [now apply (IH (S i))|].
    destruct (collect2 (S i) rest) as [[[a b] c]|e1] eqn:Ec';
      [discriminate|].
    inversion Ec; subst. now apply (IH (S i)).
  - inversion Ec; subst.
    exact (recency_weight_raises_TypeError _ _ Ew).
Qed.

(** X12.  One record whose timestamp is read without a UTC offset, at any
    place of the snapshot, ends the run with [TypeError] before anything is
    sent to the classifier or to [compute_index]. *)
Theorem offsetless_timestamp_aborts_run (news_raw : list article) :
  (exists k n s ts,
      nth_error news_raw k = Some n /\ timestamp n = Str s /\ s <> "" /\
      fromisoformat (replace "Z" "+00:00" s) = Some ts /\
      utcoffset_us ts = None) ->
  run2 news_raw = ([], Raise TypeError).
Proof.
  intros [k [n [s [ts [Hk [Ht [Hs [Hp Ho]]]]]]]].
  assert (R : exists e, collect2 0 news_raw = Raise e).
  { apply collect_raises_iff. exists k, n, TypeError. split; [exact Hk|].
    rewrite Ht. simpl.
    exact (@recency_weight_naive fromisoformat (now_at k) s ts Hs Hp Ho). }
  destruct R as [e Ec].
  pose proof (collect_raises_TypeError _ _ Ec). subst e.
  exact (@run_collect_raises fromisoformat analyze_batch compute_index
           now_at now_end news_raw TypeError Ec).
Qed.

(** X13.  Which records reach the classifier.  A record whose timestamp
    is missing, [null], empty or unreadable is never kept.  A record with
    ASCII text whose timestamp carries a UTC offset is kept exactly when it
    is at most thirty days old on the clock and its text has a character
    other than TAB, LF, VT, FF, CR, FS, GS, RS, US and the space. *)
Theorem kept_iff_recent_with_text (i : nat) (n : article) :
  (timestamp n = Absent \/ timestamp n = Null \/
   (exists s, timestamp n = Str s /\
              (s = "" \/ fromisoformat (replace "Z" "+00:00" s) = None)) ->
   kept2 i n = false) /\
  (forall s ts off,
      timestamp n = Str s -> s <> "" ->
      fromisoformat (replace "Z" "+00:00" s) = Some ts ->
      utcoffset_us ts = Some off ->
      ascii_only (_extract_news_text n) = true ->
      (kept2 i n = true <->
       (now_at i - (wall_us ts - off) <= 30 * 86400000000)%Z /\
       exists c,
         In c (list_ascii_of_string (_extract_news_text n)) /\
         ~ In (nat_of_ascii c) [9; 10; 11; 12; 13; 28; 29; 30; 31; 32]%nat)).
Proof.
  split.
  - intros H. unfold kept.
    assert (E : rw2 (now_at i) (get_default (timestamp n)) = Ok 0%Q).
    { destruct H as [->|[->|[s [-> [->|Hp]]]]]; try reflexivity.
      exact (@recency_weight_unparsable fromisoformat (now_at i) s Hp). }
    now rewrite E.
  - intros s ts off Ht Hs Hp Ho _. unfold kept. rewrite Ht.
    change (get_default (Str s)) with (Some s).
    rewrite (@recency_weight_aware fromisoformat (now_at i) s ts off Hs Hp Ho).
    rewrite andb_true_iff, negb_true_iff, Qle_bool_false, truthy_nonempty.
    rewrite step_weight_pos_iff.
    rewrite (age_days_of_le _ (d := 30)) by lia.
    rewrite strip_nonempty_iff.
    replace (now_at i - 0 - (wall_us ts - off))%Z
      with (now_at i - (wall_us ts - off))%Z by lia.
    reflexivity.
Qed.

End RunMore.

(** Two fresh records, two scores. *)
Lemma result_documents_follow_kept_records_witness :
  exists (r : result) (scores : list SentimentScores),
    snd (analyze_documents fromisoformat_ref (answers 2) index clock t_end
                           [article_a; article_stale; article_b]) = Ok r /\
    map id (res_documents r)
    = firstn (List.length scores)
             (map doc_id (select fromisoformat_ref clock 0
                                 [article_a; article_stale; article_b])) /\
    res_count r = 2%nat.
Proof.
  destruct (@result_documents_follow_kept_records
              fromisoformat_ref (answers 2) index clock t_end
              [article_a; article_stale; article_b] _ _ eq_refl)
    as [scores [_ [H1 _]]].
  eexists. exists scores. split; [reflexivity|]. split; [exact H1|reflexivity].
Defined.

(** The same run reports what the aggregator returned. *)
Lemma successful_run_reports_the_index_witness :
  exists r scores weights c,
    snd (analyze_documents fromisoformat_ref (answers 2) index clock t_end
                           [article_a; article_b]) = Ok r /\
    index scores weights = Ok c /\ res_gsi r = gsi c.
Proof.
  destruct (@successful_run_reports_the_index
              fromisoformat_ref (answers 2) index clock t_end
              [article_a; article_b] _ _ eq_refl)
    as [scores [weights [c [H1 [_ [_ [_ [H2 _]]]]]]]].
  eexists. exists scores, weights, c.
  split; [reflexivity|]. split; [exact H1 | exact H2].
Defined.

(** A fresh record followed by one dated without offset. *)
Lemma offsetless_timestamp_aborts_run_witness :
  analyze_documents fromisoformat_ref (answers 2) index clock t_end
    [article_a;
     {| title := Str "Gold dips"; description := Null; content := Absent;
        timestamp := Str "2024-01-01T00:00:00"; url := Absent |}]
  = ([], Raise TypeError).
Proof.
  apply (@offsetless_timestamp_aborts_run
           fromisoformat_ref (answers 2) index clock t_end _).
  exists 1%nat. do 3 eexists.
  split; [reflexivity|]. split; [reflexivity|]. split; [discriminate|].
  split; reflexivity.
Defined.

(** The stale record of the snapshot is not kept, the fresh one is. *)
Lemma kept_iff_recent_with_text_witness :
  kept fromisoformat_ref clock 0 article_a = true /\
  kept fromisoformat_ref clock 1 article_stale = false.
Proof.
  split.
  - apply (proj2 (@kept_iff_recent_with_text fromisoformat_ref clock 0
                    article_a)
             "2024-01-01T00:00:00Z"
             {| wall_us := 1704067200000000; utcoffset_us := Some 0%Z |} 0%Z
             eq_refl ltac:(discriminate) eq_refl eq_refl eq_refl).
    split; [vm_compute; discriminate|].
    exists "G"%char. split; [simpl; tauto|].
    simpl. intuition discriminate.
  - destruct (proj2 (@kept_iff_recent_with_text fromisoformat_ref clock 1
                       article_stale)
                "2023-01-01T00:00:00Z"
                {| wall_us := 1672531200000000; utcoffset_us := Some 0%Z |}
                0%Z eq_refl ltac:(discriminate) eq_refl eq_refl eq_refl)
      as [F _].
    destruct (kept fromisoformat_ref clock 1 article_stale); [|reflexivity].
    destruct (F eq_refl) as [G _]. vm_compute in G. now elim G.
Defined.

(** ** The files of a run *)

Section FileFacts.

Import Json.

Variable isoformat : Z -> string.

#[local] Abbreviation save := (save_results isoformat).

(** X14.  What [_load_news] makes of [news.json].  A missing file and a
    document that Python counts as false ([null], [false], 0, an empty
    string, array or object) give the empty snapshot; an array gives its
    items; an object gives its keys instead of records; text that is not
    JSON, a number other than 0 and [true] end in an exception. *)
Theorem load_news_by_content (st : store) :
  (st NEWS_JSON_PATH = None -> _load_news st = Done []) /\
  (st NEWS_JSON_PATH = Some Garbled -> _load_news st = JSONDecodeError) /\
  (forall v, st NEWS_JSON_PATH = Some (Doc v) -> py_truthy v = false ->
             _load_news st = Done []) /\
  (forall items, st NEWS_JSON_PATH = Some (Doc (JArr items)) ->
                 _load_news st = Done items) /\
  (forall d, st NEWS_JSON_PATH = Some (Doc (JObj d)) ->
             _load_news st = Done (map (fun kv => JStr (fst kv)) d)) /\
  (forall x, st NEWS_JSON_PATH = Some (Doc (JNum x)) -> x <> 0%R ->
             _load_news st = Uncaught TypeError) /\
  (st NEWS_JSON_PATH = Some (Doc (JBool true)) ->
   _load_news st = Uncaught TypeError).
Proof.
  unfold _load_news, _load_json.
  repeat split; intros.
  - now rewrite H.
  - now rewrite H.
  - rewrite H. now rewrite H0.
  - rewrite H. now destruct items.
  - rewrite H. now destruct d.
  - rewrite H. simpl. destruct (Req_dec_T x 0); [contradiction | reflexivity].
  - now rewrite H.
Qed.

Lemma write_text_same (p : string) (f : file) (st : store) :
  write_text p f st p = Some f.
Proof. unfold write_text. now rewrite String.eqb_refl. Qed.

Lemma write_text_other (p q : string) (f : file) (st : store) :
  q <> p -> write_text p f st q = st q.
Proof.
  intros H. unfold write_text.
  destruct (String.eqb q p) eqn:E; [|reflexivity].
  apply String.eqb_eq in E. contradiction.
Qed.

(** X15.  [save_results] replaces exactly two files, the full result and
    the payload of the gauge, and leaves every other path as it was; what
    was saved before is overwritten.  The two files agree: the payload
    repeats the [timestamp], [gsi] and [classification] of the result and
    the [nw_norm] of its [news] part. *)
Theorem save_results_writes_two_files (r : result) (st : store) :
  save r st SENTIMENT_RESULTS_PATH = Some (Doc (result_json isoformat r)) /\
  save r st GSI_VALUE_PATH = Some (Doc (gsi_payload isoformat r)) /\
  (forall p, p <> SENTIMENT_RESULTS_PATH -> p <> GSI_VALUE_PATH ->
             save r st p = st p) /\
  (forall r0 p, save r (save r0 st) p = save r st p) /\
  field "timestamp" (gsi_payload isoformat r)
  = field "timestamp" (result_json isoformat r) /\
  field "gsi" (gsi_payload isoformat r) = field "gsi" (result_json isoformat r) /\
  field "classification" (gsi_payload isoformat r)
  = field "classification" (result_json isoformat r) /\
  (exists news, field "news" (result_json isoformat r) = Some news /\
                field "nw_norm" (gsi_payload isoformat r)
                = field "nw_norm" news).
Proof.
  unfold save_results.
  split; [|split; [|split; [|split]]].
  - rewrite write_text_other by discriminate. apply write_text_same.
  - apply write_text_same.
  - intros p H1 H2. now rewrite !write_text_other by assumption.
  - intros r0 p. unfold write_text.
    destruct (String.eqb p GSI_VALUE_PATH); [reflexivity|].
    now destruct (String.eqb p SENTIMENT_RESULTS_PATH).
  - repeat split. eexists. split; reflexivity.
Qed.


Variable fromisoformat : string -> option datetime.
Variable analyze_batch : list string -> outcome (list SentimentScores).
Variable compute_index :
  list SentimentScores -> list R -> outcome IndexComponents.
Variable now_at : nat -> Z.
Variable now_end : Z.

#[local] Abbreviation run3 :=
  (analyze_documents fromisoformat analyze_batch compute_index now_at now_end).
(** Every result of a run comes out of [build_result]. *)
Lemma run_result_built (news_raw : list article) (tr : list event)
  (r : result) :
  run3 news_raw = (tr, Ok r) ->
  exists docs c, r = build_result now_end docs c.
Proof.
  intros Hrun.
  destruct (run_cases fromisoformat analyze_batch compute_index now_at
                      now_end news_raw)
    as [[e [_ E]]|[[items [ws [Ec E]]]|[[items [ws [texts [e [_ [_ [_ E]]]]]]]
       |[items [ws [texts [scores [Ec [Hn [Eb E]]]]]]]]]];
    rewrite E in Hrun; try discriminate.
  - destruct (compute_index [] []) as [c|e]; [|discriminate].
    injection Hrun as _ Hr. now exists [], c.
  - destruct (compute_index _ _) as [c|e]; [|discriminate].
    injection Hrun as _ Hr. now exists (news_docs_of items scores), c.
Qed.

Variable fate : string -> write_fate.

#[local] Abbreviation pipeline :=
  (run_analysis_only isoformat fate fromisoformat analyze_batch compute_index
                     now_at now_end).

(** A save whose two writes go through is [save_results]. *)
Lemma save_results_io_written (r : result) (st : store) :
  fate SENTIMENT_RESULTS_PATH = Written -> fate GSI_VALUE_PATH = Written ->
  save_results_io isoformat fate r st = (None, save r st).
Proof.
  intros F1 F2. unfold save_results_io, save_results, try_write.
  now rewrite F1, F2.
Qed.

Lemma save_results_io_first_raises (r : result) (st : store) :
  fate SENTIMENT_RESULTS_PATH <> Written ->
  fst (save_results_io isoformat fate r st) = Some SENTIMENT_RESULTS_PATH /\
  snd (save_results_io isoformat fate r st) GSI_VALUE_PATH
  = st GSI_VALUE_PATH.
Proof.
  intros N. unfold save_results_io, try_write.
  destruct (fate SENTIMENT_RESULTS_PATH); [now elim N| |];
    cbn [fst snd]; split; try reflexivity;
    now rewrite write_text_other by discriminate.
Qed.

Lemma save_results_io_second_raises (r : result) (st : store) :
  fate SENTIMENT_RESULTS_PATH = Written -> fate GSI_VALUE_PATH <> Written ->
  fst (save_results_io isoformat fate r st) = Some GSI_VALUE_PATH /\
  snd (save_results_io isoformat fate r st) SENTIMENT_RESULTS_PATH
  = Some (Doc (result_json isoformat r)) /\
  (snd (save_results_io isoformat fate r st) GSI_VALUE_PATH
   = st GSI_VALUE_PATH \/
   snd (save_results_io isoformat fate r st) GSI_VALUE_PATH = Some Garbled).
Proof.
  intros F1 N. unfold save_results_io, try_write. rewrite F1.
  destruct (fate GSI_VALUE_PATH); [now elim N| |]; cbn [fst snd].
  - split; [reflexivity|]. split; [apply write_text_same|]. left.
    now rewrite write_text_other by discriminate.
  - split; [reflexivity|]. split.
    + rewrite write_text_other by discriminate. apply write_text_same.
    + right. apply write_text_same.
Qed.

Lemma save_results_io_other_paths (r : result) (st : store) (p : string) :
  p <> SENTIMENT_RESULTS_PATH -> p <> GSI_VALUE_PATH ->
  snd (save_results_io isoformat fate r st) p = st p.
Proof.
  intros N1 N2. unfold save_results_io, try_write.
  destruct (fate SENTIMENT_RESULTS_PATH); cbn [fst snd];
    try destruct (fate GSI_VALUE_PATH); cbn [fst snd];
    now rewrite ?write_text_other by assumption.
Qed.

Lemma pipeline_after_analysis (news_raw : list article) (st : store)
  (tr : list event) (r : result) :
  run3 news_raw = (tr, Ok r) ->
  snd (fst (pipeline news_raw st))
  = match fst (save_results_io isoformat fate r st) with
    | None => Completed
    | Some path => WriteRaised path
    end /\
  snd (pipeline news_raw st) = snd (save_results_io isoformat fate r st).
Proof.
  intros Hrun. unfold run_analysis_only. rewrite Hrun.
  now destruct (save_results_io isoformat fate r st) as [[path|] st'].
Qed.

(** X17.  What [run_analysis_only] does to the files.  When the analysis
    raises, nothing is saved and no file changes.  When it returns, the
    result file is written first: if that write raises, the payload file is
    left alone; if it goes through and the write of the payload raises, the
    result file already holds the new result while the payload file holds
    its old content or nothing readable, so the save is not atomic; if both
    go through, the two files hold the new result, in which [count] is the
    number of entries of [documents], each entry being the [to_dict] of a
    document with its [id] readable under the key "id".  [news.json] and
    the page are never written. *)
Theorem run_analysis_only_file_effects (news_raw : list article)
  (st : store) :
  let out := pipeline news_raw st in
  let ended := snd (fst out) in
  let st' := snd out in
  (forall e, snd (run3 news_raw) = Raise e ->
             ended = AnalysisRaised e /\ forall p, st' p = st p) /\
  (forall r, snd (run3 news_raw) = Ok r ->
     (fate SENTIMENT_RESULTS_PATH <> Written ->
      ended = WriteRaised SENTIMENT_RESULTS_PATH /\
      st' GSI_VALUE_PATH = st GSI_VALUE_PATH) /\
     (fate SENTIMENT_RESULTS_PATH = Written ->
      fate GSI_VALUE_PATH <> Written ->
      ended = WriteRaised GSI_VALUE_PATH /\
      st' SENTIMENT_RESULTS_PATH = Some (Doc (result_json isoformat r)) /\
      (st' GSI_VALUE_PATH = st GSI_VALUE_PATH \/
       st' GSI_VALUE_PATH = Some Garbled)) /\
     (fate SENTIMENT_RESULTS_PATH = Written ->
      fate GSI_VALUE_PATH = Written ->
      ended = Completed /\
      st' SENTIMENT_RESULTS_PATH = Some (Doc (result_json isoformat r)) /\
      st' GSI_VALUE_PATH = Some (Doc (gsi_payload isoformat r)) /\
      exists news docs,
        field "news" (result_json isoformat r) = Some news /\
        field "documents" news = Some (JArr docs) /\
        field "count" news = Some (JNum (INR (List.length docs))) /\
        map (field "id") docs
        = map (fun d => Some (JStr (id d))) (res_documents r))) /\
  st' NEWS_JSON_PATH = st NEWS_JSON_PATH /\
  st' DASHBOARD_HTML_PATH = st DASHBOARD_HTML_PATH.
Proof.
  intros out ended st'. unfold ended, st', out. clear out ended st'.
  destruct (run3 news_raw) as [tr [r|e]] eqn:Hrun.
  - destruct (pipeline_after_analysis news_raw st Hrun) as [P1 P2].
    rewrite P1, P2. cbn [snd].
    split; [intros e H; discriminate|]. split.
    + intros r0 Hr. injection Hr as <-. split; [|split].
      * intros N. destruct (save_results_io_first_raises r st N) as [A B].
        rewrite A. now split.
      * intros F1 N.
        destruct (save_results_io_second_raises r st F1 N) as [A [B C]].
        rewrite A. now repeat split.
      * intros F1 F2. rewrite (save_results_io_written r st F1 F2).
        cbn [fst snd]. split; [reflexivity|].
        split.
        { unfold save_results. rewrite write_text_other by discriminate.
          apply write_text_same. }
        split; [unfold save_results; apply write_text_same|].
        destruct (run_result_built _ Hrun) as [docs [c ->]].
        do 2 eexists. split; [reflexivity|]. split; [reflexivity|].
        split; [simpl; now rewrite length_map|].
        simpl. rewrite map_map. apply map_ext. reflexivity.
    + split; apply save_results_io_other_paths; discriminate.
  - unfold run_analysis_only. rewrite Hrun. cbn [fst snd].
    split; [|split; [intros r H; discriminate | now split]].
    intros e0 H. injection H as <-. now split.
Qed.

End FileFacts.

(** A directory without [news.json] gives the empty snapshot. *)
Lemma load_news_by_content_witness :
  _load_news page_only = Json.Done [].
Proof. apply (proj1 (load_news_by_content page_only)). reflexivity. Defined.

(** Saving leaves the page alone. *)
Lemma save_results_writes_two_files_witness :
  save_results isoformat_ref (build_result t_end [] IndexCalc.neutral_index)
               page_only Json.DASHBOARD_HTML_PATH
  = Some Json.Garbled.
Proof.
  rewrite (proj1 (proj2 (proj2 (save_results_writes_two_files
                                  isoformat_ref
                                  (build_result t_end []
                                     IndexCalc.neutral_index)
                                  page_only))));
    [reflexivity | discriminate | discriminate].
Defined.


(** The [docs] directory cannot be written: the result file is new, the
    payload file is still missing. *)
Lemma run_analysis_only_file_effects_witness :
  let out := run_analysis_only isoformat_ref docs_read_only fromisoformat_ref
                               (answers 2) index clock t_end
                               [article_a; article_b] page_only in
  snd (fst out) = WriteRaised Json.GSI_VALUE_PATH /\
  (snd out Json.GSI_VALUE_PATH = page_only Json.GSI_VALUE_PATH \/
   snd out Json.GSI_VALUE_PATH = Some Json.Garbled).
Proof.
  destruct (proj1 (proj2 (proj1 (proj2
              (@run_analysis_only_file_effects
                 isoformat_ref fromisoformat_ref (answers 2) index clock
                 t_end docs_read_only [article_a; article_b] page_only))
              _ eq_refl))
              eq_refl ltac:(discriminate)) as [E [_ G]].
  split; [exact E | exact G].
Defined.

Example isoformat_ref_t_end :
  isoformat_ref t_end = "2024-01-01T01:00:00.000001+00:00" /\
  isoformat_ref t0 = "2024-01-01T00:00:00+00:00".
Proof. split; reflexivity. Qed.

(** ** The gauge on the canvas *)

Section CanvasFacts.

Import Dashboard.

#[local] Open Scope R_scope.

Lemma outerR_value : outerR = 243.
Proof. unfold outerR, W, H. rewrite Rmin_left; lra. Qed.

Lemma innerR_value : innerR = 145.8.
Proof. unfold innerR. rewrite outerR_value. lra. Qed.

Lemma thetaFor_range (v : R) : 0 <= v <= 100 <-> 0 <= thetaFor v <= PI.
Proof.
  unfold thetaFor. pose proof PI_RGT_0 as P. split; intros [A B]; split; nra.
Qed.

(** X18.  [thetaFor] turns the scale around: a larger value gets a smaller
    angle, the values from 0 to 100 are exactly those with an angle from
    [PI] down to 0, and 0, 50 and 100 sit at [PI], [PI/2] and 0. *)
Theorem thetaFor_reverses_scale :
  (forall v1 v2, v1 < v2 <-> thetaFor v2 < thetaFor v1) /\
  (forall v, 0 <= v <= 100 <-> 0 <= thetaFor v <= PI) /\
  thetaFor 0 = PI /\ thetaFor 50 = PI / 2 /\ thetaFor 100 = 0.
Proof.
  pose proof PI_RGT_0 as P. unfold thetaFor.
  split; [|split; [|repeat split]].
  - intros v1 v2. split; intros H; nra.
  - exact thetaFor_range.
  - lra.
  - lra.
  - lra.
Qed.

(** X19.  For a value between 0 and 100 the needle ends on the canvas, on
    or above the line through the centre, at nine tenths of the outer
    radius from the centre; it points left at 0, straight up at 50 and
    right at 100. *)
Theorem needle_stays_on_canvas :
  (forall v, 0 <= v <= 100 ->
     let x := fst (needle_tip v) in
     let y := snd (needle_tip v) in
     0 <= x <= W /\ 0 <= y <= cy /\ cy <= H /\
     (x - cx) * (x - cx) + (y - cy) * (y - cy)
     = (outerR * 0.9) * (outerR * 0.9)) /\
  needle_tip 0 = (cx - outerR * 0.9, cy) /\
  needle_tip 50 = (cx, cy - outerR * 0.9) /\
  needle_tip 100 = (cx + outerR * 0.9, cy).
Proof.
  split; [|split; [|split]].
  - intros v Hv x y. unfold x, y, needle_tip. simpl.
    apply thetaFor_range in Hv. destruct Hv as [T0 T1].
    pose proof (sin_ge_0 _ T0 T1) as S0.
    pose proof (SIN_bound (thetaFor v)) as [_ S1].
    pose proof (COS_bound (thetaFor v)) as [C0 C1].
    pose proof (sin2_cos2 (thetaFor v)) as SC. unfold Rsqr in SC.
    rewrite outerR_value. unfold cx, cy, W, H.
    repeat split; try nra.
  - unfold needle_tip.
    replace (thetaFor 0) with PI by (unfold thetaFor; lra).
    rewrite cos_PI, sin_PI. f_equal; lra.
  - unfold needle_tip.
    replace (thetaFor 50) with (PI / 2) by (unfold thetaFor; lra).
    rewrite cos_PI2, sin_PI2. f_equal; lra.
  - unfold needle_tip.
    replace (thetaFor 100) with 0 by (unfold thetaFor; lra).
    rewrite cos_0, sin_0. f_equal; lra.
Qed.

Lemma drawn_band_bounds (b : Z * Z * string) :
  In b drawn_bands ->
  0 <= IZR (fst (fst b)) <= 100 /\ 0 <= IZR (snd (fst b)) <= 100.
Proof.
  unfold drawn_bands. simpl.
  intros [<-|[<-|[<-|[<-|[<-|[]]]]]]; simpl; lra.
Qed.

Lemma sqrt2_lt : sqrt 2 < 1.42.
Proof.
  replace 1.42 with (sqrt (1.42 * 1.42)) by (apply sqrt_square; lra).
  apply sqrt_lt_1; lra.
Qed.

Lemma sin_quarter_bound (a : R) :
  PI / 4 <= a <= 3 * (PI / 4) -> 0.7 < sin a.
Proof.
  intros [A B]. pose proof PI_RGT_0 as P.
  assert (Q : 0.7 < sin (PI / 4)).
  { rewrite sin_PI4. pose proof sqrt2_lt as S.
    assert (S0 : 0 < sqrt 2) by (apply sqrt_lt_R0; lra).
    apply Rmult_lt_reg_r with (sqrt 2); [assumption|].
    unfold Rdiv. rewrite Rmult_assoc, Rinv_l by lra. lra. }
  destruct (Rle_dec a (PI / 2)) as [L|L].
  - eapply Rlt_le_trans; [exact Q|]. apply sin_incr_1; lra.
  - rewrite <- (sin_PI_x a).
    eapply Rlt_le_trans; [exact Q|]. apply sin_incr_1; lra.
Qed.

(** X20.  Where the bands are painted.  With canvas angles growing
    clockwise and y growing downwards, every point of every band lies on or
    below the line through the centre, while the needle of a value between
    0 and 100 ends on or above it: for a value strictly between, the tip of
    the needle is in no band.  The bands of 25-45, 45-55 and 55-75 lie
    wholly below the lower edge of the canvas. *)
Theorem bands_painted_below_centre (v : R) :
  (forall s pt, In s (fst (drawGauge v)) -> in_sector s pt -> cy <= snd pt) /\
  (0 <= v <= 100 -> snd (snd (drawGauge v)) <= cy) /\
  (0 < v < 100 ->
   forall s, In s (fst (drawGauge v)) -> ~ in_sector s (needle_tip v)) /\
  (forall lo hi color pt,
      In (lo, hi, color) drawn_bands -> (25 <= lo)%Z -> (hi <= 75)%Z ->
      in_sector (drawBand (IZR lo) (IZR hi) color) pt -> H < snd pt).
Proof.
  assert (Below : forall s pt, In s (fst (drawGauge v)) -> in_sector s pt ->
                               cy <= snd pt).
  { intros s pt Hs [r [a [[R0 R1] [[A0 A1] ->]]]].
    unfold drawGauge in Hs. cbn [fst] in Hs. apply in_map_iff in Hs.
    destruct Hs as [b [<- Hb]]. simpl in A0, A1.
    destruct (drawn_band_bounds Hb) as [Blo Bhi].
    apply thetaFor_range in Blo. apply thetaFor_range in Bhi.
    assert (S : 0 <= sin a) by (apply sin_ge_0; lra).
    rewrite innerR_value in R0. simpl. nra. }
  split; [exact Below|]. split; [|split].
  - intros Hv. simpl. apply thetaFor_range in Hv. destruct Hv as [T0 T1].
    pose proof (sin_ge_0 _ T0 T1). rewrite outerR_value. nra.
  - intros [V0 V1] s Hs Hin.
    pose proof (Below s _ Hs Hin) as B. simpl in B.
    assert (S : 0 < sin (thetaFor v)).
    { pose proof PI_RGT_0. apply sin_gt_0; unfold thetaFor; nra. }
    rewrite outerR_value in B. nra.
  - intros lo hi color pt Hb Hlo Hhi [r [a [[R0 R1] [[A0 A1] ->]]]].
    simpl in A0, A1. unfold thetaFor in A0, A1.
    apply IZR_le in Hlo, Hhi. pose proof PI_RGT_0 as P.
    assert (S : 0.7 < sin a) by (apply sin_quarter_bound; split; nra).
    rewrite innerR_value in R0. simpl. unfold cy, H. nra.
Qed.

(** X21.  The painted bands and [classifyGsi] cut the scale at the same
    places: two values inside one band get the same label, and two values
    inside different bands get different labels. *)
Theorem bands_match_classifyGsi (b1 b2 : Z * Z * string) (v1 v2 : R) :
  In b1 drawn_bands -> In b2 drawn_bands ->
  IZR (fst (fst b1)) <= v1 < IZR (snd (fst b1)) ->
  IZR (fst (fst b2)) <= v2 < IZR (snd (fst b2)) ->
  (b1 = b2 <-> classifyGsi v1 = classifyGsi v2).
Proof.
  unfold drawn_bands. simpl.
  intros [<-|[<-|[<-|[<-|[<-|[]]]]]] [<-|[<-|[<-|[<-|[<-|[]]]]]];
    simpl; intros H1 H2; unfold classifyGsi;
    repeat match goal with
           | |- context [Rlt_dec ?a ?b] => destruct (Rlt_dec a b); try lra
           end;
    split; intros E; try reflexivity; try discriminate.
Qed.

End CanvasFacts.

(** The needle at 30. *)
Lemma needle_stays_on_canvas_witness :
  (0 <= snd (Dashboard.needle_tip 30) <= Dashboard.cy)%R.
Proof.
  apply (proj1 needle_stays_on_canvas 30%R). lra.
Defined.

(** The needle at 30 is outside the band painted for 25-45. *)
Lemma bands_painted_below_centre_witness :
  ~ Dashboard.in_sector (Dashboard.drawBand 25 45 "#fee2e2")
                        (Dashboard.needle_tip 30).
Proof.
  apply (proj1 (proj2 (proj2 (bands_painted_below_centre 30%R))));
    [lra | simpl; tauto].
Defined.

(** 30 and 40 lie in one band, 30 and 50 in two. *)
Lemma bands_match_classifyGsi_witness :
  Dashboard.classifyGsi 30 = Dashboard.classifyGsi 40.
Proof.
  apply (@bands_match_classifyGsi (25, 45, "#fee2e2")%Z (25, 45, "#fee2e2")%Z
           30%R 40%R); simpl; try tauto; try lra.
Defined.

(** ** The page and the payload *)

Section PageFacts.

Import Dashboard Json.

#[local] Open Scope R_scope.

Variable toLocaleString : string -> string.

#[local] Abbreviation show := (applyPayload toLocaleString).

Lemma toFixed0_nonneg (x : R) (n : Z) :
  0 <= x -> (toFixed0 x = n <-> IZR n - / 2 <= x < IZR n + / 2).
Proof.
  intros Hx. unfold toFixed0.
  destruct (Rlt_dec x 0) as [L|_]; [lra|].
  destruct (base_Int_part (x + / 2)) as [B1 B2]. split.
  - intros <-. lra.
  - intros [A1 A2]. symmetry. apply Int_part_spec. lra.
Qed.

Lemma toFixed0_near (x : R) : Rabs (IZR (toFixed0 x) - x) <= / 2.
Proof.
  unfold toFixed0. destruct (Rlt_dec x 0) as [L|L].
  - destruct (base_Int_part (- x + / 2)) as [B1 B2].
    rewrite opp_IZR. apply Rabs_le. lra.
  - destruct (base_Int_part (x + / 2)) as [B1 B2].
    apply Rabs_le. lra.
Qed.

(** X22.  Without data the page shows the middle of the scale: a [null]
    payload and a payload none of whose fields is set both give the gauge
    at 50, the number 50, the label "Neutral" and no date. *)
Theorem applyPayload_defaults (p : option payload) :
  p = None \/
  p = Some {| p_gsi := None; p_classification := None; p_timestamp := None |} ->
  show p = {| gauge_value := 50; value_text := 50; label_text := "Neutral";
              updated_text := "Last updated: n/a" |}.
Proof.
  assert (T : toFixed0 50 = 50%Z) by (apply toFixed0_nonneg; lra).
  assert (C : classifyGsi 50 = "Neutral").
  { unfold classifyGsi.
    repeat match goal with
           | |- context [Rlt_dec ?a ?b] => destruct (Rlt_dec a b); try lra
           end. reflexivity. }
  intros [-> | ->]; unfold applyPayload, formatTimestamp; simpl;
    now rewrite T, C.
Qed.

(** X23.  The number on the page is the value rounded to the nearest
    integer, so it is at most one half away from the value; the label is
    taken from the value itself.  Just below a threshold of [classifyGsi]
    the page therefore prints the threshold with the label of the band
    under it. *)
Theorem printed_value_rounds (gsi : R) (t : option string) :
  let v := show (Some {| p_gsi := Some gsi; p_classification := None;
                         p_timestamp := t |}) in
  Rabs (IZR (value_text v) - gsi) <= / 2 /\
  label_text v = classifyGsi gsi /\
  (forall b : Z, In b [25; 45; 55; 75]%Z -> IZR b - / 2 <= gsi < IZR b ->
                 value_text v = b /\ label_text v <> classifyGsi (IZR b)).
Proof.
  intros v. unfold v, applyPayload. simpl.
  split; [apply toFixed0_near|]. split; [reflexivity|].
  intros b Hb [H1 H2]. split.
  - apply toFixed0_nonneg; [|lra].
    simpl in Hb. destruct Hb as [<-|[<-|[<-|[<-|[]]]]]; lra.
  - simpl in Hb. unfold classifyGsi.
    destruct Hb as [<-|[<-|[<-|[<-|[]]]]];
      repeat match goal with
             | |- context [Rlt_dec ?a ?b] => destruct (Rlt_dec a b); try lra
             end; discriminate.
Qed.

Variable isoformat : Z -> string.

(** X24.  From the run to the page.  The payload file [save_results]
    writes is read by the page as a payload with all three fields set; the
    gauge then stands at the [gsi] of the result, the number is that [gsi]
    rounded, and the label is the [classification] of the result as saved
    ([classifyGsi] steps in only for an empty one). *)
Theorem page_shows_saved_result (r : result) (st : store) :
  exists j p,
    save_results isoformat r st GSI_VALUE_PATH = Some (Doc j) /\
    read_payload j = Some (Some p) /\
    p = {| p_gsi := Some (res_gsi r);
           p_classification := Some (res_classification r);
           p_timestamp := Some (isoformat (res_timestamp r)) |} /\
    gauge_value (show (Some p)) = res_gsi r /\
    value_text (show (Some p)) = toFixed0 (res_gsi r) /\
    (res_classification r <> "" ->
     label_text (show (Some p)) = res_classification r) /\
    (res_classification r = "" ->
     label_text (show (Some p)) = classifyGsi (res_gsi r)).
Proof.
  exists (gsi_payload isoformat r).
  eexists. split; [|split; [reflexivity|split; [reflexivity|]]].
  - unfold save_results. apply write_text_same.
  - unfold applyPayload. simpl. repeat split.
    + intros H. apply truthy_nonempty in H. now rewrite H.
    + intros H. now rewrite H.
Qed.

End PageFacts.

(** The page before any run. *)
Lemma applyPayload_defaults_witness :
  Dashboard.label_text (Dashboard.applyPayload (fun s => s) None) = "Neutral".
Proof.
  rewrite (@applyPayload_defaults (fun s => s) None (or_introl eq_refl)).
  reflexivity.
Defined.

(** At 24.7 the page prints 25 and says "Extremely Bearish". *)
Lemma printed_value_rounds_witness :
  Dashboard.value_text
    (Dashboard.applyPayload (fun s => s)
       (Some {| Dashboard.p_gsi := Some 24.7%R;
                Dashboard.p_classification := None;
                Dashboard.p_timestamp := None |})) = 25%Z.
Proof.
  apply (proj2 (proj2 (@printed_value_rounds (fun s => s) 24.7%R None)) 25%Z).
  - simpl. tauto.
  - lra.
Defined.

(** A result labelled by the aggregator keeps its label on the page. *)
Lemma page_shows_saved_result_witness :
  exists p,
    Dashboard.read_payload
      (gsi_payload isoformat_ref
         (build_result t_end [] IndexCalc.neutral_index)) = Some (Some p) /\
    Dashboard.label_text (Dashboard.applyPayload (fun s => s) (Some p))
    = "Neutral".
Proof.
  destruct (@page_shows_saved_result (fun s => s) isoformat_ref
              (build_result t_end [] IndexCalc.neutral_index) page_only)
    as [j [p [_ [_ [Hp [_ [_ [L _]]]]]]]].
  exists p. split; [now rewrite Hp|].
  rewrite L; [reflexivity | discriminate].
Defined.

(** ** Weights and documents side by side *)

Section AlignmentFacts.

Variable fromisoformat : string -> option datetime.
Variable analyze_batch : list string -> outcome (list SentimentScores).
Variable compute_index :
  list SentimentScores -> list R -> outcome IndexComponents.
Variable now_at : nat -> Z.
Variable now_end : Z.

Lemma docs_weights_aligned (items : list article) :
  forall (scores : list SentimentScores) (ws : list Q),
    List.length ws = List.length items ->
    Forall (fun w => (0 < w <= 1)%Q) ws ->
    Forall2 weight_of (news_docs_of items scores)
            (effective_weights_of scores ws (map _extract_news_text items)).
Proof.
  induction items as [|n rest IH]; intros scores ws L F.
  - destruct scores, ws; simpl; constructor.
  - destruct ws as [|w ws]; [discriminate|].
    destruct scores as [|s ss]; [simpl; constructor|].
    inversion F as [|? ? Fw F']; subst. simpl. constructor.
    + exists w. split; [exact Fw | reflexivity].
    + apply IH; [simpl in L; lia | exact F'].
Qed.

(** X25.  In a run that returns, the weights handed to [compute_index]
    and the documents of the result go side by side, whatever the
    classifier returned: there is one weight per document, and weight [k]
    is a recency weight in (0,1] times the impact weight of the score and
    the text of document [k]. *)
Theorem weights_belong_to_documents
  (news_raw : list article) (tr : list event) (r : result)
  (scores : list SentimentScores) (weights : list R) :
  analyze_documents fromisoformat analyze_batch compute_index now_at now_end
                    news_raw = (tr, Ok r) ->
  In (ComputeIndex scores weights) tr ->
  Forall2 weight_of (res_documents r) weights /\
  List.length weights = res_count r.
Proof.
  intros Hrun Hin.
  assert (A : Forall2 weight_of (res_documents r) weights).
  { destruct (run_cases fromisoformat analyze_batch compute_index now_at
                        now_end news_raw)
      as [[e [_ E]]|[[items [ws [Ec E]]]|[[items [ws [texts [e [_ [_ [_ E]]]]]]]
         |[items [ws [texts [sc [Ec [Hn [Eb E]]]]]]]]]];
      rewrite E in Hrun; try discriminate.
    - destruct (compute_index [] []) as [c|e]; [|discriminate].
      injection Hrun as Ht Hr. subst tr r.
      destruct Hin as [Hin|[]]. inversion Hin; subst. constructor.
    - destruct (compute_index _ _) as [c|e]; [|discriminate].
      injection Hrun as Ht Hr. subst tr r.
      destruct Hin as [Hin|[Hin|[]]]; [discriminate|].
      inversion Hin; subst. simpl.
      destruct (@collect_select fromisoformat now_at news_raw 0 items ws
                  texts Ec) as [_ [H2 [H3 [H4 _]]]].
      rewrite H2. now apply docs_weights_aligned. }
  split; [exact A|].
  destruct (@run_result_built fromisoformat analyze_batch compute_index
              now_at now_end news_raw tr r Hrun) as [docs [c ->]].
  simpl in *. symmetry. exact (Forall2_length A).
Qed.

End AlignmentFacts.

(** Two fresh records and one score: one document, one weight. *)
Lemma weights_belong_to_documents_witness :
  exists r weights,
    snd (analyze_documents fromisoformat_ref (answers 1) index clock t_end
                           [article_a; article_b]) = Ok r /\
    Forall2 weight_of (res_documents r) weights /\
    res_count r = 1%nat.
Proof.
  destruct (@weights_belong_to_documents
              fromisoformat_ref (answers 1) index clock t_end
              [article_a; article_b] _ _ _ _ eq_refl
              (or_intror (or_introl eq_refl))) as [A _].
  do 2 eexists. split; [reflexivity|]. split; [exact A | reflexivity].
Defined.

(** ** The page as a file *)

Section PageFileFacts.

Import Json.

Variable isoformat : Z -> string.

(** X26.  The page is static.  [generate_dashboard] writes the page and
    nothing else, it does not look at any result, and it can run before or
    after [save_results] with the same files in the end; the result that
    was saved stays readable. *)
Theorem generate_dashboard_is_static (r : result) (st : store) :
  (forall p, p <> DASHBOARD_HTML_PATH ->
             Dashboard.generate_dashboard st p = st p) /\
  (forall p, Dashboard.generate_dashboard (save_results isoformat r st) p
             = save_results isoformat r (Dashboard.generate_dashboard st) p) /\
  Dashboard._load_current_result
    (Dashboard.generate_dashboard (save_results isoformat r st))
  = result_json isoformat r.
Proof.
  unfold Dashboard.generate_dashboard, save_results.
  split; [|split].
  - intros p H. now apply write_text_other.
  - intros p. unfold write_text.
    destruct (String.eqb p DASHBOARD_HTML_PATH) eqn:E1;
      destruct (String.eqb p GSI_VALUE_PATH) eqn:E2;
      destruct (String.eqb p SENTIMENT_RESULTS_PATH) eqn:E3;
      try reflexivity;
      apply String.eqb_eq in E1; subst p; discriminate.
  - unfold Dashboard._load_current_result.
    rewrite !write_text_other by discriminate.
    now rewrite write_text_same.
Qed.

End PageFileFacts.

(** Writing the page leaves a directory without [news.json] without it. *)
Lemma generate_dashboard_is_static_witness :
  Dashboard.generate_dashboard page_only Json.NEWS_JSON_PATH = None.
Proof.
  rewrite (proj1 (generate_dashboard_is_static isoformat_ref
                    (build_result t_end [] IndexCalc.neutral_index)
                    page_only)); [reflexivity | discriminate].
Defined.

(** 20 comes before 80 on the scale and after it in angle. *)
Lemma thetaFor_reverses_scale_witness :
  (Dashboard.thetaFor 80 < Dashboard.thetaFor 20)%R.
Proof. apply (proj1 (proj1 thetaFor_reverses_scale 20%R 80%R)). lra. Defined.
